(** * BookmarkApp: the live bookmark collection of [BookmarkDashboard.tsx]

    A shallow embedding of the state, the change-feed handlers and the
    asynchronous request handlers of the [BookmarkDashboard] component,
    followed by the properties of the collection it maintains. *)

From Stdlib Require Import List Bool Arith NArith Lia String Ascii.
From Stdlib Require Import Sorting.Sorted.
From Stdlib Require Import ZArith DecimalString.
Import ListNotations.

(** ** JavaScript strings

    A JavaScript string is a sequence of UTF-16 code units.  The component
    uses [===], [trim], [startsWith] and [+] on them. *)

Module JS.

Definition jsstring := list N.

(** A string literal of the source, as its code units. *)
Definition lit (s : string) : jsstring :=
  map N_of_ascii (list_ascii_of_string s).

(** [a === b] on strings. *)
Fixpoint eqb (a b : jsstring) : bool :=
  match a, b with
  | [], [] => true
  | x :: a', y :: b' => N.eqb x y && eqb a' b'
  | _, _ => false
  end.

(** The order of [<] on strings: code unit by code unit. *)
Fixpoint compare (a b : jsstring) : comparison :=
  match a, b with
  | [], [] => Eq
  | [], _ :: _ => Lt
  | _ :: _, [] => Gt
  | x :: a', y :: b' =>
      match N.compare x y with
      | Eq => compare a' b'
      | c => c
      end
  end.

(** WhiteSpace and LineTerminator code points, the ones [trim] strips. *)
Definition isWhiteSpace (c : N) : bool :=
  existsb (N.eqb c)
    [9; 10; 11; 12; 13; 32; 160; 5760;
     8192; 8193; 8194; 8195; 8196; 8197; 8198; 8199; 8200; 8201; 8202;
     8232; 8233; 8239; 8287; 12288; 65279]%N.

Fixpoint trimStart (s : jsstring) : jsstring :=
  match s with
  | c :: s' => if isWhiteSpace c then trimStart s' else s
  | [] => []
  end.

Definition trimEnd (s : jsstring) : jsstring := rev (trimStart (rev s)).

Definition trim (s : jsstring) : jsstring := trimEnd (trimStart s).

Fixpoint startsWith (s p : jsstring) : bool :=
  match p, s with
  | [], _ => true
  | x :: p', y :: s' => N.eqb x y && startsWith s' p'
  | _ :: _, [] => false
  end.

(** Truthiness of a string: [!s] is [negb (truthy s)]. *)
Definition truthy (s : jsstring) : bool :=
  match s with [] => false | _ :: _ => true end.

End JS.

Abbreviation jsstring := JS.jsstring.

(** ** The data model *)

Module Bookmark.

Record t := mk {
  id : jsstring;
  url : jsstring;
  title : jsstring;
  created_at : jsstring;
  user_id : jsstring
}.

End Bookmark.

Abbreviation Bookmark := Bookmark.t.

(** ** The change-feed handlers

    The two state updaters handed to [setBookmarks] by the [INSERT] and the
    [DELETE] handler of the realtime channel. *)

(** [prev.some((b) => b.id === id)] *)
Definition hasId (id : jsstring) (prev : list Bookmark) : bool :=
  existsb (fun b => JS.eqb (Bookmark.id b) id) prev.

(** [(prev) => { if (prev.some(...)) return prev; return [payload.new, ...prev]; }] *)
Definition onInsert (new : Bookmark) (prev : list Bookmark) : list Bookmark :=
  if hasId (Bookmark.id new) prev then prev else new :: prev.

(** [(prev) => prev.filter((b) => b.id !== payload.old.id)] *)
Definition onDelete (old_id : jsstring) (prev : list Bookmark) : list Bookmark :=
  filter (fun b => negb (JS.eqb (Bookmark.id b) old_id)) prev.

(** ** The external collaborators, as the component sees them *)

Module User.

Record t := mk { id : jsstring }.

End User.

Abbreviation User := User.t.

Module Supabase.

Record PostgrestError := { message : jsstring }.

(** The [{ data, error }] object a query resolves to. *)
Record Response := {
  data : option (list Bookmark);
  error : option PostgrestError
}.

(** [.eq(column, value)] *)
Inductive Filter := eq (column value : jsstring).

(** [.order(column, { ascending })] *)
Record Order := { column : jsstring; ascending : bool }.

(** The object literal given to [.insert]. *)
Record Row := { url : jsstring; title : jsstring; user_id : jsstring }.

(** A query on a table, as built by [supabase.from(table)...]. *)
Inductive Request :=
| select (table columns : jsstring) (filters : list Filter) (order : option Order)
| insert (table : jsstring) (row : Row)
| delete (table : jsstring) (filters : list Filter).

Inductive ChangeEvent := INSERT | DELETE.

(** One [.on("postgres_changes", {...}, handler)] registration. *)
Record Binding := {
  event : ChangeEvent;
  schema : jsstring;
  table : jsstring;
  filter : jsstring
}.

(** What the realtime client reports about a subscription. *)
Inductive Status := SUBSCRIBED | TIMED_OUT | CLOSED | CHANNEL_ERROR.

Record Channel := {
  topic : jsstring;
  bindings : list Binding;
  status : option Status
}.

End Supabase.

(** ** The component state: one field per [useState] *)

Record State := {
  bookmarks : list Bookmark;
  url : jsstring;
  title : jsstring;
  loading : bool;
  adding : bool;
  deletingId : option jsstring;
  showForm : bool;
  errorMsg : option jsstring
}.

Definition initialState : State :=
  {| bookmarks := []; url := []; title := []; loading := true;
     adding := false; deletingId := None; showForm := false;
     errorMsg := None |}.

(** The continuation of an [async] handler parked at its [await].  The one of
    [handleAddBookmark] closes over [fetchBookmarks], hence over the [user]
    of the render that created it. *)
Inductive Pending :=
| AwaitFetch
| AwaitInsert (user : User)
| AwaitDelete.

(** The component together with what it has handed to the client: the
    requests issued so far, the promises not yet resolved and the realtime
    channel it holds. *)
Record World := {
  ui : State;
  sent : list Supabase.Request;
  inflight : list Pending;
  channel : option Supabase.Channel
}.

Definition initialWorld : World :=
  {| ui := initialState; sent := []; inflight := []; channel := None |}.

(** Handlers are sequences of effects on the world. *)
Definition Action := World -> World.

Definition skip : Action := fun w => w.

Definition andThen (a b : Action) : Action := fun w => b (a w).

Notation "a ;; b" := (andThen a b) (at level 61, right associativity).

Definition onState (f : State -> State) : Action := fun w =>
  {| ui := f (ui w); sent := sent w; inflight := inflight w;
     channel := channel w |}.

Definition setBookmarks (f : list Bookmark -> list Bookmark) : Action :=
  onState (fun s =>
    {| bookmarks := f (bookmarks s); url := url s; title := title s;
       loading := loading s; adding := adding s; deletingId := deletingId s;
       showForm := showForm s; errorMsg := errorMsg s |}).

Definition setUrl (v : jsstring) : Action :=
  onState (fun s =>
    {| bookmarks := bookmarks s; url := v; title := title s;
       loading := loading s; adding := adding s; deletingId := deletingId s;
       showForm := showForm s; errorMsg := errorMsg s |}).

Definition setTitle (v : jsstring) : Action :=
  onState (fun s =>
    {| bookmarks := bookmarks s; url := url s; title := v;
       loading := loading s; adding := adding s; deletingId := deletingId s;
       showForm := showForm s; errorMsg := errorMsg s |}).

Definition setLoading (v : bool) : Action :=
  onState (fun s =>
    {| bookmarks := bookmarks s; url := url s; title := title s;
       loading := v; adding := adding s; deletingId := deletingId s;
       showForm := showForm s; errorMsg := errorMsg s |}).

Definition setAdding (v : bool) : Action :=
  onState (fun s =>
    {| bookmarks := bookmarks s; url := url s; title := title s;
       loading := loading s; adding := v; deletingId := deletingId s;
       showForm := showForm s; errorMsg := errorMsg s |}).

Definition setDeletingId (v : option jsstring) : Action :=
  onState (fun s =>
    {| bookmarks := bookmarks s; url := url s; title := title s;
       loading := loading s; adding := adding s; deletingId := v;
       showForm := showForm s; errorMsg := errorMsg s |}).

Definition setShowForm (v : bool) : Action :=
  onState (fun s =>
    {| bookmarks := bookmarks s; url := url s; title := title s;
       loading := loading s; adding := adding s; deletingId := deletingId s;
       showForm := v; errorMsg := errorMsg s |}).

Definition setErrorMsg (v : option jsstring) : Action :=
  onState (fun s =>
    {| bookmarks := bookmarks s; url := url s; title := title s;
       loading := loading s; adding := adding s; deletingId := deletingId s;
       showForm := showForm s; errorMsg := v |}).

(** [await q]: the query goes out and the rest of the handler is parked until
    the promise resolves. *)
Definition await (q : Supabase.Request) (k : Pending) : Action := fun w =>
  {| ui := ui w; sent := sent w ++ [q]; inflight := inflight w ++ [k];
     channel := channel w |}.

Definition setChannel (c : option Supabase.Channel) : Action := fun w =>
  {| ui := ui w; sent := sent w; inflight := inflight w; channel := c |}.

(** ** The handlers of [BookmarkDashboard]

    Each [async] handler is cut at its [await]: the part before it issues the
    query, the [_resume] part runs when the promise resolves. *)

Definition bookmarksTable : jsstring := JS.lit "bookmarks".

(** [fetchBookmarks], up to the [await]. *)
Definition fetchBookmarks (user : User) : Action :=
  setErrorMsg None ;;
  await
    (Supabase.select bookmarksTable (JS.lit "*")
       [Supabase.eq (JS.lit "user_id") (User.id user)]
       (Some {| Supabase.column := JS.lit "created_at";
                Supabase.ascending := false |}))
    AwaitFetch.

(** [fetchBookmarks], from [if (error)] on. *)
Definition fetchBookmarks_resume (r : Supabase.Response) : Action :=
  match Supabase.error r with
  | Some error => setErrorMsg (Some (Supabase.message error))
  | None =>
      match Supabase.data r with
      | Some data => setBookmarks (fun _ => data)
      | None => skip
      end
  end ;;
  setLoading false.

(** The channel built in the effect: one [INSERT] and one [DELETE] binding,
    both filtered to the user's rows; [.subscribe()] is given no callback. *)
Definition realtimeChannel (user : User) : Supabase.Channel :=
  let binding ev :=
    {| Supabase.event := ev;
       Supabase.schema := JS.lit "public";
       Supabase.table := bookmarksTable;
       Supabase.filter := JS.lit "user_id=eq." ++ User.id user |} in
  {| Supabase.topic := JS.lit "bookmarks-realtime";
     Supabase.bindings := [binding Supabase.INSERT; binding Supabase.DELETE];
     Supabase.status := None |}.

(** The body of the [useEffect]. *)
Definition effect (user : User) : Action :=
  fetchBookmarks user ;;
  setChannel (Some (realtimeChannel user)).

(** The function the [useEffect] returns: [supabase.removeChannel(channel)]. *)
Definition cleanup : Action := setChannel None.

(** The client calls a binding's handler only while the channel is held. *)
Definition listens (ev : Supabase.ChangeEvent) (w : World) : bool :=
  match channel w with
  | Some c =>
      existsb
        (fun b =>
           match Supabase.event b, ev with
           | Supabase.INSERT, Supabase.INSERT => true
           | Supabase.DELETE, Supabase.DELETE => true
           | _, _ => false
           end)
        (Supabase.bindings c)
  | None => false
  end.

Definition deliver (ev : Supabase.ChangeEvent) (handler : Action) : Action :=
  fun w => if listens ev w then handler w else w.

(** The client records what happened to the subscription; the component gave
    [.subscribe()] no callback, so nothing of it runs. *)
Definition channelStatus (st : Supabase.Status) : Action := fun w =>
  match channel w with
  | Some c =>
      setChannel
        (Some {| Supabase.topic := Supabase.topic c;
                 Supabase.bindings := Supabase.bindings c;
                 Supabase.status := Some st |}) w
  | None => w
  end.

(** [finalUrl] of [handleAddBookmark]. *)
Definition finalUrl (url : jsstring) : jsstring :=
  let finalUrl := JS.trim url in
  if negb (JS.startsWith finalUrl (JS.lit "http://"))
     && negb (JS.startsWith finalUrl (JS.lit "https://"))
  then JS.lit "https://" ++ finalUrl
  else finalUrl.

(** [handleAddBookmark], up to the [await]. *)
Definition handleAddBookmark (user : User) : Action := fun w =>
  if negb (JS.truthy (JS.trim (url (ui w))))
     || negb (JS.truthy (JS.trim (title (ui w))))
  then w
  else
    (setAdding true ;;
     setErrorMsg None ;;
     await
       (Supabase.insert bookmarksTable
          {| Supabase.url := finalUrl (url (ui w));
             Supabase.title := JS.trim (title (ui w));
             Supabase.user_id := User.id user |})
       (AwaitInsert user)) w.

(** [handleAddBookmark], from [if (error)] on. *)
Definition handleAddBookmark_resume (user : User) (r : Supabase.Response)
  : Action :=
  match Supabase.error r with
  | Some error => setErrorMsg (Some (Supabase.message error))
  | None =>
      setUrl [] ;;
      setTitle [] ;;
      setShowForm false ;;
      fetchBookmarks user
  end ;;
  setAdding false.

(** [handleDeleteBookmark], up to the [await]. *)
Definition handleDeleteBookmark (id : jsstring) : Action :=
  setDeletingId (Some id) ;;
  await (Supabase.delete bookmarksTable [Supabase.eq (JS.lit "id") id])
    AwaitDelete.

(** [handleDeleteBookmark], after the [await]: the result is not looked at. *)
Definition handleDeleteBookmark_resume (r : Supabase.Response) : Action :=
  setDeletingId None.

Definition resume (k : Pending) (r : Supabase.Response) : Action :=
  match k with
  | AwaitFetch => fetchBookmarks_resume r
  | AwaitInsert user => handleAddBookmark_resume user r
  | AwaitDelete => handleDeleteBookmark_resume r
  end.

(** The list of promises in flight once the [i]-th has resolved. *)
Definition without (i : nat) (l : list Pending) : list Pending :=
  firstn i l ++ skipn (S i) l.

(** The [i]-th promise in flight resolves to [r]. *)
Definition resolve (i : nat) (r : Supabase.Response) : Action := fun w =>
  match nth_error (inflight w) i with
  | Some k =>
      resume k r
        {| ui := ui w; sent := sent w;
           inflight := without i (inflight w);
           channel := channel w |}
  | None => w
  end.

(** ** The component as an event machine

    JavaScript runs one callback at a time; an event is one such callback.
    The machine is the code of the component, and its setters always act;
    which callbacks React lets act, and when it runs the effect and its
    cleanup, is [react] below. *)

Inductive Event :=
| Effect (user : User)                  (* the [useEffect] body runs *)
| Cleanup                               (* its cleanup runs *)
| FeedInsert (new : Bookmark)           (* an [INSERT] change arrives *)
| FeedDelete (old_id : jsstring)        (* a [DELETE] change arrives *)
| ChannelStatus (st : Supabase.Status)  (* the subscription changes state *)
| Submit (user : User)                  (* the form is submitted *)
| ClickDelete (id : jsstring)           (* a delete button is clicked *)
| Resolve (i : nat) (r : Supabase.Response)
| ChangeUrl (v : jsstring)
| ChangeTitle (v : jsstring)
| ToggleForm
| DismissError.                         (* the button of the error alert *)

Definition step (e : Event) : Action :=
  match e with
  | Effect user => effect user
  | Cleanup => cleanup
  | FeedInsert new => deliver Supabase.INSERT (setBookmarks (onInsert new))
  | FeedDelete old_id => deliver Supabase.DELETE (setBookmarks (onDelete old_id))
  | ChannelStatus st => channelStatus st
  | Submit user => handleAddBookmark user
  | ClickDelete id => handleDeleteBookmark id
  | Resolve i r => resolve i r
  | ChangeUrl v => setUrl v
  | ChangeTitle v => setTitle v
  | ToggleForm => fun w => setShowForm (negb (showForm (ui w))) w
  | DismissError => setErrorMsg None
  end.

Definition run (es : list Event) (w : World) : World :=
  fold_left (fun w e => step e w) es w.

(** ** The ordering rule of the collection *)

(** [a] may stand immediately before [b]: newer first, and for equal
    [created_at] the smaller [id] first. *)
Definition inOrder (a b : Bookmark) : bool :=
  match JS.compare (Bookmark.created_at a) (Bookmark.created_at b) with
  | Gt => true
  | Lt => false
  | Eq =>
      match JS.compare (Bookmark.id a) (Bookmark.id b) with
      | Gt => false
      | _ => true
      end
  end.

Fixpoint sorted (l : list Bookmark) : bool :=
  match l with
  | a :: (b :: _) as l' => inOrder a b && sorted l'
  | _ => true
  end.

(** What an event must satisfy, in the world it arrives in, for prepending and
    wholesale replacement to respect the ordering rule: a snapshot is in
    order, and a record the feed adds may stand before the first bookmark. *)
Definition keepsOrder (w : World) (e : Event) : bool :=
  match e with
  | FeedInsert new =>
      hasId (Bookmark.id new) (bookmarks (ui w))
      || match bookmarks (ui w) with
         | [] => true
         | b :: _ => inOrder new b
         end
  | Resolve i r =>
      match nth_error (inflight w) i, Supabase.error r, Supabase.data r with
      | Some AwaitFetch, None, Some data => sorted data
      | _, _, _ => true
      end
  | _ => true
  end.

Fixpoint orderly (es : list Event) (w : World) : bool :=
  match es with
  | [] => true
  | e :: es' => keepsOrder w e && orderly es' (step e w)
  end.

(** The events of the change feed. *)
Definition isFeed (e : Event) : bool :=
  match e with
  | FeedInsert _ | FeedDelete _ => true
  | _ => false
  end.

(** The filters a request carries. *)
Definition requestFilters (q : Supabase.Request) : list Supabase.Filter :=
  match q with
  | Supabase.select _ _ filters _ => filters
  | Supabase.insert _ _ => []
  | Supabase.delete _ filters => filters
  end.

(** Whether [q] is restricted to the rows whose [column] is [value]. *)
Definition filtersBy (column value : jsstring) (q : Supabase.Request) : bool :=
  existsb
    (fun f =>
       match f with
       | Supabase.eq c v => JS.eqb c column && JS.eqb v value
       end)
    (requestFilters q).

(** ** Sample data *)

Definition alice : User := User.mk (JS.lit "u1").

Definition bookmark1 : Bookmark :=
  {| Bookmark.id := JS.lit "1";
     Bookmark.url := JS.lit "https://one.example";
     Bookmark.title := JS.lit "One";
     Bookmark.created_at := JS.lit "2024-01-01T10:00:00+00:00";
     Bookmark.user_id := JS.lit "u1" |}.

Definition bookmark2 : Bookmark :=
  {| Bookmark.id := JS.lit "2";
     Bookmark.url := JS.lit "https://two.example";
     Bookmark.title := JS.lit "Two";
     Bookmark.created_at := JS.lit "2024-01-02T10:00:00+00:00";
     Bookmark.user_id := JS.lit "u1" |}.

(** A world whose form holds the given URL and title. *)
Definition formWorld (u t : string) : World :=
  (setUrl (JS.lit u) ;; setTitle (JS.lit t)) initialWorld.

(** A successful and a failed response. *)
Definition ok (data : option (list Bookmark)) : Supabase.Response :=
  {| Supabase.data := data; Supabase.error := None |}.

Definition failed (message : string) : Supabase.Response :=
  {| Supabase.data := None;
     Supabase.error := Some {| Supabase.message := JS.lit message |} |}.

(** ** What the rendering computes *)

(** [disabled] of the submit button:
    [adding || !url.trim() || !title.trim()]. *)
Definition submitDisabled (s : State) : bool :=
  adding s
  || negb (JS.truthy (JS.trim (url s)))
  || negb (JS.truthy (JS.trim (title s))).

(** [disabled] of the delete button of a bookmark:
    [deletingId === bookmark.id]. *)
Definition deleteDisabled (s : State) (b : Bookmark) : bool :=
  match deletingId s with
  | Some id => JS.eqb id (Bookmark.id b)
  | None => false
  end.

(** The keys of the rendered list ([key={bookmark.id}]) are pairwise
    different. *)
Fixpoint distinctIds (l : list Bookmark) : bool :=
  match l with
  | [] => true
  | b :: l' => negb (hasId (Bookmark.id b) l') && distinctIds l'
  end.

(** A snapshot that resolves with rows has rows of pairwise different ids. *)
Definition keepsDistinct (w : World) (e : Event) : bool :=
  match e with
  | Resolve i r =>
      match nth_error (inflight w) i, Supabase.error r, Supabase.data r with
      | Some AwaitFetch, None, Some data => distinctIds data
      | _, _, _ => true
      end
  | _ => true
  end.

Fixpoint distinctly (es : list Event) (w : World) : bool :=
  match es with
  | [] => true
  | e :: es' => keepsDistinct w e && distinctly es' (step e w)
  end.

(** [s.replace(p, r)] for a string pattern [p] and a replacement [r] without
    [$] patterns: the first occurrence of [p] in [s] becomes [r]. *)
Fixpoint replace (s p r : jsstring) : jsstring :=
  if JS.startsWith s p then r ++ skipn (List.length p) s
  else
    match s with
    | [] => []
    | c :: s' => c :: replace s' p r
    end.

(** [getDomain].  [hostname urlString] stands for
    [new URL(urlString).hostname], and is [None] when the constructor
    throws. *)
Definition getDomain (hostname : jsstring -> option jsstring)
  (urlString : jsstring) : jsstring :=
  match hostname urlString with
  | Some h => replace h (JS.lit "www.") []
  | None => urlString
  end.

(** A valid [Date]: its time value in milliseconds and its calendar year. *)
Module JSDate.

Record t := { getTime : Z; getFullYear : Z }.

End JSDate.

(** What [formatDate] returns: a string it builds itself, or the result of
    [date.toLocaleDateString("en-US", { month: "short", day: "numeric",
    year })]. *)
Inductive Formatted :=
| Text (s : jsstring)
| LocaleDateString (year : option jsstring).

(** [`${n}`] for an integer [n]. *)
Definition numeral (n : Z) : jsstring :=
  JS.lit (NilZero.string_of_int (Z.to_int n)).

(** [formatDate], for the [Date] of the bookmark and the [Date] of the clock.
    The quotients are far below 2^53 wherever their value is shown, so
    [Math.floor] of the floating-point quotient is the integer quotient. *)
Definition formatDate (date now : JSDate.t) : Formatted :=
  let diff := (JSDate.getTime now - JSDate.getTime date)%Z in
  let minutes := (diff / 60000)%Z in
  let hours := (diff / 3600000)%Z in
  let days := (diff / 86400000)%Z in
  if (minutes <? 1)%Z then Text (JS.lit "Just now")
  else if (minutes <? 60)%Z then Text (numeral minutes ++ JS.lit "m ago")
  else if (hours <? 24)%Z then Text (numeral hours ++ JS.lit "h ago")
  else if (days <? 7)%Z then Text (numeral days ++ JS.lit "d ago")
  else
    LocaleDateString
      (if negb (JSDate.getFullYear date =? JSDate.getFullYear now)%Z
       then Some (JS.lit "numeric")
       else None).

(** A string that neither begins nor ends with white space. *)
Definition headOk (s : jsstring) : bool :=
  match s with
  | [] => true
  | c :: _ => negb (JS.isWhiteSpace c)
  end.

Definition lastOk (s : jsstring) : bool := headOk (rev s).

(** A request that stays within the bookmarks of [user]: a query filtered by
    the id of the user, an insert of a row of the user, or a delete. *)
Definition forUser (user : User) (q : Supabase.Request) : bool :=
  match q with
  | Supabase.select table _ _ _ =>
      JS.eqb table bookmarksTable
      && filtersBy (JS.lit "user_id") (User.id user) q
  | Supabase.insert table row =>
      JS.eqb table bookmarksTable
      && JS.eqb (Supabase.user_id row) (User.id user)
  | Supabase.delete table _ => JS.eqb table bookmarksTable
  end.

(** The component is rendered for [user]: the effect and the form handler
    are the ones of that user. *)
Definition eventOf (user : User) (e : Event) : bool :=
  match e with
  | Effect u | Submit u => JS.eqb (User.id u) (User.id user)
  | _ => true
  end.

Definition pendingOf (user : User) (k : Pending) : bool :=
  match k with
  | AwaitInsert u => JS.eqb (User.id u) (User.id user)
  | _ => true
  end.

(** ** React's part: the life of the component

    React runs the body of the effect once the component is mounted.  When a
    dependency of the effect has changed ([user.id] among them) it runs the
    cleanup and then the body again, in one go.  On unmount it runs the
    cleanup alone, and the state of the component is gone: a continuation
    that resolves later still runs and still sends what it sends, but its
    setters do nothing.  [step] is the component's own code; [react] puts it
    in this life cycle. *)

Inductive Phase := Fresh | Mounted | Unmounted.

Inductive Lifecycle :=
| Mount (user : User)       (* the effect body, after the first render *)
| Rerun (user : User)       (* cleanup and effect body, for new dependencies *)
| Unmount                   (* the cleanup, for good *)
| Callback (e : Event).     (* a handler or a continuation is called *)

Record Component := { phase : Phase; world : World }.

Definition freshComponent : Component :=
  {| phase := Fresh; world := initialWorld |}.

(** What is left of [after] when the setters did nothing. *)
Definition dropUpdates (before after : World) : World :=
  {| ui := ui before; sent := sent after; inflight := inflight after;
     channel := channel after |}.

Definition react (l : Lifecycle) (c : Component) : Component :=
  match l, phase c with
  | Mount user, Fresh =>
      {| phase := Mounted; world := step (Effect user) (world c) |}
  | Rerun user, Mounted =>
      {| phase := Mounted;
         world := step (Effect user) (step Cleanup (world c)) |}
  | Unmount, Mounted =>
      {| phase := Unmounted; world := step Cleanup (world c) |}
  | Callback (Effect _), _ | Callback Cleanup, _ => c
  | Callback e, Mounted => {| phase := Mounted; world := step e (world c) |}
  | Callback (Resolve i r), Unmounted =>
      {| phase := Unmounted;
         world := dropUpdates (world c) (step (Resolve i r) (world c)) |}
  | _, _ => c
  end.

Definition reactRun (ls : list Lifecycle) (c : Component) : Component :=
  fold_left (fun c l => react l c) ls c.


(** The inserts of [handleAddBookmark] that have not resolved yet. *)
Definition isInsertPending (k : Pending) : bool :=
  match k with
  | AwaitInsert _ => true
  | _ => false
  end.

Definition insertsInFlight (w : World) : nat :=
  List.length (filter isInsertPending (inflight w)).

(** While an insert is in flight it is the only one and [adding] is set. *)
Definition oneInsert (w : World) : Prop :=
  insertsInFlight w = 0
  \/ (insertsInFlight w = 1 /\ adding (ui w) = true).

Definition isSubmit (e : Event) : bool :=
  match e with
  | Submit _ => true
  | _ => false
  end.

(** More sample data. *)
Definition bob : User := User.mk (JS.lit "u2").

Definition bookmark3 : Bookmark :=
  {| Bookmark.id := JS.lit "3";
     Bookmark.url := JS.lit "https://three.example";
     Bookmark.title := JS.lit "Three";
     Bookmark.created_at := JS.lit "2024-01-03T10:00:00+00:00";
     Bookmark.user_id := JS.lit "u1" |}.

(** * Properties *)

(** ** Strings *)

Lemma JS_eqb_eq (a b : jsstring) : JS.eqb a b = true <-> a = b.
Proof.
  revert b; induction a as [|x a IH]; intros [|y b]; simpl;
    try (split; [discriminate | congruence]); [tauto|].
  rewrite andb_true_iff, N.eqb_eq, IH.
  split; [intros [-> ->]; reflexivity | intros [= -> ->]; auto].
Qed.

Lemma JS_eqb_refl (a : jsstring) : JS.eqb a a = true.
Proof. apply JS_eqb_eq; reflexivity. Qed.

Lemma JS_eqb_neq (a b : jsstring) : JS.eqb a b = false <-> a <> b.
Proof.
  rewrite <- JS_eqb_eq. destruct (JS.eqb a b); split; congruence.
Qed.

(** ** Membership by id *)

Lemma hasId_In (id : jsstring) (prev : list Bookmark) :
  hasId id prev = true <-> exists b, In b prev /\ Bookmark.id b = id.
Proof.
  unfold hasId. rewrite existsb_exists.
  split; intros [b [Hin Hb]]; exists b; split; auto; apply JS_eqb_eq; auto.
Qed.

Lemma hasId_app (id : jsstring) (l1 l2 : list Bookmark) :
  hasId id (l1 ++ l2) = hasId id l1 || hasId id l2.
Proof. apply existsb_app. Qed.

Lemma onDelete_absent (old_id : jsstring) (prev : list Bookmark) :
  hasId old_id prev = false -> onDelete old_id prev = prev.
Proof.
  induction prev as [|b prev IH]; simpl; [reflexivity|].
  intros H. apply orb_false_iff in H as [Hb Hprev].
  rewrite Hb; simpl. f_equal; auto.
Qed.

Lemma hasId_onDelete (old_id : jsstring) (prev : list Bookmark) :
  hasId old_id (onDelete old_id prev) = false.
Proof.
  induction prev as [|b prev IH]; simpl; [reflexivity|].
  destruct (JS.eqb (Bookmark.id b) old_id) eqn:Hb; simpl; [exact IH|].
  rewrite Hb; exact IH.
Qed.

Lemma onDelete_app (old_id : jsstring) (l1 l2 : list Bookmark) :
  onDelete old_id (l1 ++ l2) = onDelete old_id l1 ++ onDelete old_id l2.
Proof. apply filter_app. Qed.

(** ** The feed handlers *)

(** C1. The [INSERT] handler puts the record in front of the collection when
    no bookmark has its id, and returns the collection as it is when one does
    (so a collection holding the id keeps its length); applying it twice is
    applying it once, for the updater and for the feed event alike. *)
Theorem added_idempotent (r : Bookmark) (prev : list Bookmark) :
  (hasId (Bookmark.id r) prev = false -> onInsert r prev = r :: prev)
  /\ (forall b, In b prev -> Bookmark.id b = Bookmark.id r ->
        onInsert r prev = prev
        /\ List.length (onInsert r prev) = List.length prev)
  /\ onInsert r (onInsert r prev) = onInsert r prev
  /\ (forall w, step (FeedInsert r) (step (FeedInsert r) w)
                = step (FeedInsert r) w).
Proof.
  assert (Hidem : forall l, onInsert r (onInsert r l) = onInsert r l).
  { intros l. unfold onInsert at 2 3.
    destruct (hasId (Bookmark.id r) l) eqn:H.
    - unfold onInsert; rewrite H; reflexivity.
    - unfold onInsert, hasId; simpl. rewrite JS_eqb_refl; reflexivity. }
  repeat split.
  - intros H; unfold onInsert; rewrite H; reflexivity.
  - unfold onInsert.
    replace (hasId (Bookmark.id r) prev) with true; [reflexivity|].
    symmetry; apply hasId_In; eauto.
  - unfold onInsert.
    replace (hasId (Bookmark.id r) prev) with true; [reflexivity|].
    symmetry; apply hasId_In; eauto.
  - apply Hidem.
  - intros w; simpl; unfold deliver.
    destruct (listens Supabase.INSERT w) eqn:Hl; [|rewrite Hl; reflexivity].
    replace (listens Supabase.INSERT (setBookmarks (onInsert r) w)) with true
      by (symmetry; exact Hl).
    unfold setBookmarks, onState; simpl. rewrite Hidem; reflexivity.
Qed.

(** C3. The [DELETE] handler leaves no bookmark with the given id, keeps the
    others in their order, takes out exactly the matching bookmark, and is the
    identity on a collection that does not hold the id.  So does the [DELETE]
    change itself on a component that holds its channel: the collection
    becomes [onDelete] of what it was, the id is gone, and the world is what
    it was when the id is not there. *)
Theorem removed_spec (old_id : jsstring) (prev : list Bookmark) :
  hasId old_id (onDelete old_id prev) = false
  /\ (forall b l1 l2, prev = l1 ++ b :: l2 -> Bookmark.id b = old_id ->
        hasId old_id l1 = false -> hasId old_id l2 = false ->
        onDelete old_id prev = l1 ++ l2)
  /\ (hasId old_id prev = false -> onDelete old_id prev = prev)
  /\ (forall w, listens Supabase.DELETE w = true ->
        bookmarks (ui (step (FeedDelete old_id) w))
        = onDelete old_id (bookmarks (ui w))
        /\ hasId old_id (bookmarks (ui (step (FeedDelete old_id) w))) = false)
  /\ (forall w b l1 l2, listens Supabase.DELETE w = true ->
        bookmarks (ui w) = l1 ++ b :: l2 -> Bookmark.id b = old_id ->
        hasId old_id l1 = false -> hasId old_id l2 = false ->
        bookmarks (ui (step (FeedDelete old_id) w)) = l1 ++ l2)
  /\ (forall w, hasId old_id (bookmarks (ui w)) = false ->
        step (FeedDelete old_id) w = w).
Proof.
  assert (Hout : forall l b l1 l2, l = l1 ++ b :: l2 ->
            Bookmark.id b = old_id ->
            hasId old_id l1 = false -> hasId old_id l2 = false ->
            onDelete old_id l = l1 ++ l2).
  { intros l b l1 l2 -> Hb H1 H2.
    rewrite onDelete_app; simpl.
    replace (JS.eqb (Bookmark.id b) old_id) with true
      by (symmetry; apply JS_eqb_eq; exact Hb).
    simpl. rewrite !onDelete_absent by assumption. reflexivity. }
  assert (Hev : forall w, listens Supabase.DELETE w = true ->
            bookmarks (ui (step (FeedDelete old_id) w))
            = onDelete old_id (bookmarks (ui w))).
  { intros w Hl. simpl; unfold deliver. rewrite Hl. reflexivity. }
  split; [apply hasId_onDelete|].
  split; [apply Hout|].
  split; [apply onDelete_absent|].
  split; [|split].
  - intros w Hl. rewrite (Hev w Hl). split; [reflexivity|].
    apply hasId_onDelete.
  - intros w b l1 l2 Hl Hw Hb H1 H2. rewrite (Hev w Hl).
    apply (Hout _ b); assumption.
  - intros w H; simpl; unfold deliver.
    destruct (listens Supabase.DELETE w); [|reflexivity].
    unfold setBookmarks, onState. rewrite onDelete_absent by exact H.
    destruct w as [[] ? ? ?]; reflexivity.
Qed.

Lemma added_idempotent_witness :
  onInsert bookmark2 [bookmark1] = [bookmark2; bookmark1]
  /\ onInsert bookmark1 [bookmark1] = [bookmark1]
  /\ List.length (onInsert bookmark1 [bookmark1]) = 1.
Proof.
  destruct (added_idempotent bookmark2 [bookmark1]) as [Hfresh _].
  destruct (added_idempotent bookmark1 [bookmark1]) as [_ [Hheld _]].
  split; [apply Hfresh; reflexivity|].
  apply (Hheld bookmark1); [left; reflexivity | reflexivity].
Defined.

Lemma removed_spec_witness :
  onDelete (JS.lit "1") [bookmark2; bookmark1] = [bookmark2]
  /\ onDelete (JS.lit "1") [bookmark2] = [bookmark2]
  /\ bookmarks
       (ui (step (FeedDelete (JS.lit "1"))
              (setBookmarks (fun _ => [bookmark2; bookmark1])
                 (step (Effect alice) initialWorld))))
     = [bookmark2]
  /\ step (FeedDelete (JS.lit "1"))
       (setBookmarks (fun _ => [bookmark2])
          (step (Effect alice) initialWorld))
     = setBookmarks (fun _ => [bookmark2]) (step (Effect alice) initialWorld).
Proof.
  destruct (removed_spec (JS.lit "1") [bookmark2; bookmark1])
    as [_ [Hout [_ [_ [Hevent _]]]]].
  destruct (removed_spec (JS.lit "1") [bookmark2])
    as [_ [_ [Habs [_ [_ Hnoop]]]]].
  split; [|split; [|split]].
  - apply (Hout bookmark1 [bookmark2] []); reflexivity.
  - apply Habs; reflexivity.
  - apply (Hevent
             (setBookmarks (fun _ => [bookmark2; bookmark1])
                (step (Effect alice) initialWorld))
             bookmark1 [bookmark2] []); reflexivity.
  - apply Hnoop; reflexivity.
Defined.

(** ** The ordering rule *)

Lemma JS_compare_refl (a : jsstring) : JS.compare a a = Eq.
Proof.
  induction a as [|x a IH]; simpl; [reflexivity|].
  rewrite N.compare_refl; exact IH.
Qed.

Lemma JS_compare_eq (a b : jsstring) : JS.compare a b = Eq -> a = b.
Proof.
  revert b; induction a as [|x a IH]; intros [|y b]; simpl;
    try discriminate; [reflexivity|].
  destruct (N.compare_spec x y) as [-> | |]; try discriminate.
  intros H; f_equal; auto.
Qed.

Lemma JS_compare_trans (c : comparison) (a b d : jsstring) :
  JS.compare a b = c -> JS.compare b d = c -> JS.compare a d = c.
Proof.
  revert b d; induction a as [|x a IH]; intros [|y b] [|z d]; simpl;
    try congruence.
  destruct (N.compare_spec x y) as [-> | Hxy | Hxy];
    destruct (N.compare_spec y z) as [-> | Hyz | Hyz];
    try congruence.
  - apply IH.
  - intros <- _. apply N.compare_lt_iff in Hxy; rewrite Hxy; reflexivity.
  - intros <- _.
    assert (H : (x < z)%N) by (eapply N.lt_trans; eassumption).
    apply N.compare_lt_iff in H; rewrite H; reflexivity.
  - intros <- _. apply N.compare_gt_iff in Hxy; rewrite Hxy; reflexivity.
  - intros <- _.
    assert (H : (z < x)%N) by (eapply N.lt_trans; eassumption).
    apply N.compare_gt_iff in H; rewrite H; reflexivity.
Qed.

Lemma JS_compare_not_Gt_trans (a b d : jsstring) :
  JS.compare a b <> Gt -> JS.compare b d <> Gt -> JS.compare a d <> Gt.
Proof.
  intros Hab Hbd.
  destruct (JS.compare a b) eqn:E1; [| |congruence];
    destruct (JS.compare b d) eqn:E2; try congruence.
  - rewrite (JS_compare_trans _ _ _ _ E1 E2); discriminate.
  - apply JS_compare_eq in E1; subst; rewrite E2; discriminate.
  - apply JS_compare_eq in E2; subst; rewrite E1; discriminate.
  - rewrite (JS_compare_trans _ _ _ _ E1 E2); discriminate.
Qed.

Lemma inOrder_trans (a b c : Bookmark) :
  inOrder a b = true -> inOrder b c = true -> inOrder a c = true.
Proof.
  unfold inOrder.
  destruct (JS.compare (Bookmark.created_at a) (Bookmark.created_at b)) eqn:Eab;
    try discriminate;
    destruct (JS.compare (Bookmark.created_at b) (Bookmark.created_at c)) eqn:Ebc;
    try discriminate.
  - apply JS_compare_eq in Eab; rewrite Eab, Ebc.
    intros Hab Hbc.
    assert (H : JS.compare (Bookmark.id a) (Bookmark.id c) <> Gt).
    { apply JS_compare_not_Gt_trans with (b := Bookmark.id b).
      - destruct (JS.compare (Bookmark.id a) (Bookmark.id b)); congruence.
      - destruct (JS.compare (Bookmark.id b) (Bookmark.id c)); congruence. }
    destruct (JS.compare (Bookmark.id a) (Bookmark.id c)); congruence.
  - apply JS_compare_eq in Eab; rewrite Eab, Ebc; reflexivity.
  - apply JS_compare_eq in Ebc; rewrite <- Ebc, Eab; reflexivity.
  - rewrite (JS_compare_trans _ _ _ _ Eab Ebc); reflexivity.
Qed.

Lemma sorted_cons (a : Bookmark) (l : list Bookmark) :
  sorted (a :: l) = true <->
  forallb (inOrder a) l = true /\ sorted l = true.
Proof.
  revert a; induction l as [|b l IH]; intros a.
  - simpl; tauto.
  - change (sorted (a :: b :: l)) with (inOrder a b && sorted (b :: l)).
    simpl forallb. rewrite !andb_true_iff. split.
    + intros [Hab Hs]. repeat split; auto.
      apply IH in Hs as [Hb _].
      rewrite forallb_forall in *.
      intros c Hc. eapply inOrder_trans; eauto.
    + intros [[Hab _] Hs]; auto.
Qed.

(** [inOrder] in words: strictly newer, or as new and with an id that is
    not greater. *)
Lemma inOrder_spec (a b : Bookmark) :
  inOrder a b = true <->
  JS.compare (Bookmark.created_at a) (Bookmark.created_at b) = Gt
  \/ (Bookmark.created_at a = Bookmark.created_at b
      /\ JS.compare (Bookmark.id a) (Bookmark.id b) <> Gt).
Proof.
  unfold inOrder.
  destruct (JS.compare (Bookmark.created_at a) (Bookmark.created_at b)) eqn:E.
  - apply JS_compare_eq in E.
    destruct (JS.compare (Bookmark.id a) (Bookmark.id b)); split;
      try (intros _; right; split; [exact E | discriminate]);
      try reflexivity; try discriminate.
    intros [H | [_ H]]; [discriminate | congruence].
  - split; [discriminate|].
    intros [H | [H _]]; [discriminate|].
    rewrite H, JS_compare_refl in E; discriminate.
  - split; [left|]; reflexivity.
Qed.

(** [sorted] checks neighbours; [inOrder] being transitive, every bookmark
    is then in order with every later one. *)
Lemma sorted_StronglySorted (l : list Bookmark) :
  sorted l = true <-> StronglySorted (fun a b => inOrder a b = true) l.
Proof.
  induction l as [|a l IH].
  - split; [constructor | reflexivity].
  - rewrite sorted_cons, IH. split.
    + intros [Ha Hl]. constructor; [exact Hl|].
      apply Forall_forall. rewrite forallb_forall in Ha. exact Ha.
    + intros H. inversion H as [|? ? Hl Ha]; subst. split; [|exact Hl].
      apply forallb_forall. rewrite Forall_forall in Ha. exact Ha.
Qed.

Lemma sorted_onDelete (old_id : jsstring) (l : list Bookmark) :
  sorted l = true -> sorted (onDelete old_id l) = true.
Proof.
  induction l as [|a l IH]; [reflexivity|].
  intros H. apply sorted_cons in H as [Ha Hl].
  simpl. destruct (negb (JS.eqb (Bookmark.id a) old_id)); auto.
  apply sorted_cons; split; auto.
  rewrite forallb_forall in *. intros c Hc.
  apply Ha. apply filter_In in Hc; tauto.
Qed.

Lemma sorted_onInsert (new : Bookmark) (l : list Bookmark) :
  sorted l = true ->
  hasId (Bookmark.id new) l
  || match l with [] => true | b :: _ => inOrder new b end = true ->
  sorted (onInsert new l) = true.
Proof.
  intros Hl H. unfold onInsert.
  destruct (hasId (Bookmark.id new) l); [exact Hl|].
  simpl in H. destruct l as [|b l]; [reflexivity|].
  change (inOrder new b && sorted (b :: l) = true).
  rewrite H, Hl; reflexivity.
Qed.

Lemma step_keeps_order (e : Event) (w : World) :
  sorted (bookmarks (ui w)) = true -> keepsOrder w e = true ->
  sorted (bookmarks (ui (step e w))) = true.
Proof.
  intros Hs Hk. destruct e; simpl in *; auto.
  - unfold deliver. destruct (listens Supabase.INSERT w); auto.
    simpl. apply sorted_onInsert; auto.
  - unfold deliver. destruct (listens Supabase.DELETE w); auto.
    simpl. apply sorted_onDelete; auto.
  - unfold channelStatus. destruct (channel w); auto.
  - unfold handleAddBookmark.
    destruct (negb (JS.truthy (JS.trim (url (ui w))))
              || negb (JS.truthy (JS.trim (title (ui w))))); auto.
  - unfold resolve. destruct (nth_error (inflight w) i) as [k|]; auto.
    destruct k, r as [data [error|]]; simpl in *; auto;
      destruct data; simpl; auto.
Qed.

(** C2, as the code has it.  The [INSERT] handler puts a record it adds at
    the front of the collection, whatever its [created_at]; a snapshot that
    resolves with rows replaces the collection by those rows, and the query
    asks the Store for [created_at] descending only.  So the collection is
    sorted by [created_at] descending, ties by [id] ascending, after every
    sequence of events in which each snapshot arrives in that order and each
    record the feed adds may stand before the first bookmark. *)
Theorem order_kept (es : list Event) (w : World) :
  (sorted (bookmarks (ui w)) = true -> orderly es w = true ->
   sorted (bookmarks (ui (run es w))) = true)
  /\ (forall new,
        listens Supabase.INSERT w = true ->
        hasId (Bookmark.id new) (bookmarks (ui w)) = false ->
        bookmarks (ui (step (FeedInsert new) w)) = new :: bookmarks (ui w))
  /\ (forall i data,
        nth_error (inflight w) i = Some AwaitFetch ->
        bookmarks (ui (step (Resolve i (ok (Some data))) w)) = data)
  /\ (forall old_id,
        listens Supabase.DELETE w = true ->
        bookmarks (ui (step (FeedDelete old_id) w))
        = onDelete old_id (bookmarks (ui w)))
  /\ (forall user,
        sent (step (Effect user) w)
        = sent w ++ [Supabase.select bookmarksTable (JS.lit "*")
                       [Supabase.eq (JS.lit "user_id") (User.id user)]
                       (Some {| Supabase.column := JS.lit "created_at";
                                Supabase.ascending := false |})]).
Proof.
  split; [|split; [|split; [|split]]].
  - revert w; induction es as [|e es IH]; intros w Hs Ho; [exact Hs|].
    simpl in Ho. apply andb_true_iff in Ho as [Hk Ho].
    simpl. apply IH; [apply step_keeps_order|]; assumption.
  - intros new Hl Hn. simpl; unfold deliver, onInsert. rewrite Hl; simpl.
    rewrite Hn; reflexivity.
  - intros i data Hi. simpl; unfold resolve. rewrite Hi. reflexivity.
  - intros old_id Hl. simpl; unfold deliver. rewrite Hl. reflexivity.
  - reflexivity.
Qed.

Lemma order_kept_witness :
  sorted
    (bookmarks
       (ui (run [Effect alice; Resolve 0 (ok (Some [bookmark2; bookmark1]));
                 FeedInsert bookmark3; FeedDelete (JS.lit "2")]
              initialWorld))) = true
  /\ bookmarks
       (ui (run [Effect alice; Resolve 0 (ok (Some [bookmark2; bookmark1]));
                 FeedInsert bookmark3; FeedDelete (JS.lit "2")]
              initialWorld))
     = [bookmark3; bookmark1]
  /\ bookmarks
       (ui (step (FeedInsert bookmark3)
              (setBookmarks (fun _ => [bookmark2; bookmark1])
                 (step (Effect alice) initialWorld))))
     = [bookmark3; bookmark2; bookmark1]
  /\ bookmarks
       (ui (step (Resolve 0 (ok (Some [bookmark2; bookmark1])))
              (step (Effect alice) initialWorld)))
     = [bookmark2; bookmark1].
Proof.
  destruct (order_kept
              [Effect alice; Resolve 0 (ok (Some [bookmark2; bookmark1]));
               FeedInsert bookmark3; FeedDelete (JS.lit "2")]
              initialWorld) as [Hsorted _].
  destruct (order_kept []
              (setBookmarks (fun _ => [bookmark2; bookmark1])
                 (step (Effect alice) initialWorld)))
    as [_ [Hfront _]].
  destruct (order_kept [] (step (Effect alice) initialWorld))
    as [_ [_ [Hsnapshot _]]].
  split; [|split; [|split]].
  - apply Hsorted; reflexivity.
  - reflexivity.
  - apply Hfront; reflexivity.
  - apply Hsnapshot; reflexivity.
Defined.

(** C2, as stated, fails: the older [bookmark1] arriving after the newer
    [bookmark2] is put in front of it. *)
Lemma order_not_invariant :
  sorted [bookmark2] = true
  /\ onInsert bookmark1 [bookmark2] = [bookmark1; bookmark2]
  /\ sorted (onInsert bookmark1 [bookmark2]) = false
  /\ sorted
       (bookmarks
          (ui (run [Effect alice; FeedInsert bookmark2; FeedInsert bookmark1]
                 initialWorld))) = false.
Proof. repeat split; reflexivity. Qed.

(** ** [handleAddBookmark] *)

Lemma truthy_false (s : jsstring) : JS.truthy s = false <-> s = [].
Proof. destruct s; simpl; split; congruence. Qed.

Lemma startsWith_app (p s : jsstring) : JS.startsWith (p ++ s) p = true.
Proof.
  induction p as [|x p IH]; simpl; [destruct s; reflexivity|].
  rewrite N.eqb_refl; exact IH.
Qed.

Lemma finalUrl_has_scheme (u : jsstring) :
  JS.startsWith (finalUrl u) (JS.lit "http://")
  || JS.startsWith (finalUrl u) (JS.lit "https://") = true.
Proof.
  unfold finalUrl.
  destruct (JS.startsWith (JS.trim u) (JS.lit "http://")) eqn:H1;
    destruct (JS.startsWith (JS.trim u) (JS.lit "https://")) eqn:H2;
    cbn [negb andb]; rewrite ?H1, ?H2; try reflexivity.
  rewrite startsWith_app; apply orb_true_r.
Qed.

(** C4, as the code has it.  The form values are trimmed first.  When the
    trimmed URL or the trimmed title is empty nothing happens, and no request
    goes out.  Otherwise exactly one insert goes out, with the trimmed title
    and with the trimmed URL, left as it is when it starts with ["http://"]
    or ["https://"] and prefixed with ["https://"] when it does not; so
    ["example.com"] is sent as ["https://example.com"]. *)
Theorem create_validation (user : User) (w : World) :
  let u := JS.trim (url (ui w)) in
  let t := JS.trim (title (ui w)) in
  (u = [] \/ t = [] -> step (Submit user) w = w)
  /\ (u <> [] -> t <> [] ->
      sent (step (Submit user) w)
      = sent w ++ [Supabase.insert bookmarksTable
                     {| Supabase.url := finalUrl (url (ui w));
                        Supabase.title := t;
                        Supabase.user_id := User.id user |}])
  /\ (JS.startsWith u (JS.lit "http://") = true
      \/ JS.startsWith u (JS.lit "https://") = true ->
      finalUrl (url (ui w)) = u)
  /\ (JS.startsWith u (JS.lit "http://") = false ->
      JS.startsWith u (JS.lit "https://") = false ->
      finalUrl (url (ui w)) = JS.lit "https://" ++ u)
  /\ finalUrl (JS.lit "example.com") = JS.lit "https://example.com".
Proof.
  cbv zeta. repeat split.
  - intros H. simpl; unfold handleAddBookmark.
    destruct H as [H|H]; apply truthy_false in H; rewrite H;
      [reflexivity | cbn [negb]; rewrite orb_true_r; reflexivity].
  - intros Hu Ht. simpl; unfold handleAddBookmark.
    destruct (JS.truthy (JS.trim (url (ui w)))) eqn:Eu;
      [|apply truthy_false in Eu; contradiction].
    destruct (JS.truthy (JS.trim (title (ui w)))) eqn:Et;
      [|apply truthy_false in Et; contradiction].
    reflexivity.
  - unfold finalUrl. intros [H|H]; rewrite H; cbn [negb andb];
      [reflexivity | rewrite andb_false_r; reflexivity].
  - unfold finalUrl. intros -> ->; reflexivity.
Qed.

Lemma create_validation_witness :
  step (Submit alice) (formWorld "  " "Example") = formWorld "  " "Example"
  /\ sent (step (Submit alice) (formWorld " example.com" "Example "))
     = [Supabase.insert bookmarksTable
          {| Supabase.url := JS.lit "https://example.com";
             Supabase.title := JS.lit "Example";
             Supabase.user_id := JS.lit "u1" |}]
  /\ finalUrl (JS.lit "http://example.com") = JS.lit "http://example.com"
  /\ finalUrl (JS.lit "ftp://example.com")
     = JS.lit "https://ftp://example.com".
Proof.
  destruct (create_validation alice (formWorld "  " "Example"))
    as [Hempty _].
  destruct (create_validation alice (formWorld " example.com" "Example "))
    as [_ [Hsent _]].
  destruct (create_validation alice (formWorld "http://example.com" "x"))
    as [_ [_ [Hkeep _]]].
  destruct (create_validation alice (formWorld "ftp://example.com" "x"))
    as [_ [_ [_ [Hadd _]]]].
  split; [|split; [|split]].
  - apply Hempty; left; reflexivity.
  - apply Hsent; discriminate.
  - apply Hkeep; left; reflexivity.
  - apply Hadd; reflexivity.
Defined.

(** C4, as stated, fails: a URL that starts with ["https://"] and ends in a
    space is sent without the space, and a URL of spaces only, which is not
    empty and has no scheme, is not sent at all. *)
Lemma create_trims_input :
  JS.startsWith (url (ui (formWorld "https://example.com " "Example")))
    (JS.lit "https://") = true
  /\ sent (step (Submit alice) (formWorld "https://example.com " "Example"))
     = [Supabase.insert bookmarksTable
          {| Supabase.url := JS.lit "https://example.com";
             Supabase.title := JS.lit "Example";
             Supabase.user_id := JS.lit "u1" |}]
  /\ JS.lit "https://example.com"
     <> url (ui (formWorld "https://example.com " "Example"))
  /\ url (ui (formWorld "   " "Example")) <> []
  /\ sent (step (Submit alice) (formWorld "   " "Example")) = [].
Proof. repeat split; try reflexivity; discriminate. Qed.

(** ** Promises in flight *)

Lemma resolve_at (i : nat) (k : Pending) (r : Supabase.Response) (w : World) :
  nth_error (inflight w) i = Some k ->
  step (Resolve i r) w
  = resume k r
      {| ui := ui w; sent := sent w; inflight := without i (inflight w);
         channel := channel w |}.
Proof. intros H; simpl; unfold resolve; rewrite H; reflexivity. Qed.

Lemma length_without (i : nat) (k : Pending) (l : list Pending) :
  nth_error l i = Some k -> List.length (without i l) = List.length l - 1.
Proof.
  intros H.
  assert (Hi : i < List.length l) by (apply nth_error_Some; congruence).
  unfold without. rewrite length_app, length_firstn, length_skipn. lia.
Qed.

Lemma feed_frame (feed : list Event) (w : World) :
  forallb isFeed feed = true ->
  inflight (run feed w) = inflight w /\ sent (run feed w) = sent w.
Proof.
  revert w; induction feed as [|e feed IH]; intros w H; [split; reflexivity|].
  simpl in H. apply andb_true_iff in H as [He H].
  simpl. destruct (IH (step e w) H) as [-> ->].
  destruct e; try discriminate; simpl; unfold deliver;
    match goal with |- context [listens ?ev w] => destruct (listens ev w) end;
    split; reflexivity.
Qed.

(** C5. When the insert of a create resolves without an error, the handler
    does not touch the collection with the result of the write; it calls
    [fetchBookmarks], so a query for all bookmarks of the user, newest first,
    goes out.  Whatever the change feed delivers in the meantime (nothing
    included), the collection is what that query returns once it resolves. *)
Theorem create_success_refetches
  (user : User) (i : nat) (r : Supabase.Response) (w : World) :
  nth_error (inflight w) i = Some (AwaitInsert user) ->
  Supabase.error r = None ->
  let w' := step (Resolve i r) w in
  bookmarks (ui w') = bookmarks (ui w)
  /\ sent w'
     = sent w ++ [Supabase.select bookmarksTable (JS.lit "*")
                    [Supabase.eq (JS.lit "user_id") (User.id user)]
                    (Some {| Supabase.column := JS.lit "created_at";
                             Supabase.ascending := false |})]
  /\ inflight w' = without i (inflight w) ++ [AwaitFetch]
  /\ forall (feed : list Event) (data : list Bookmark),
       forallb isFeed feed = true ->
       bookmarks
         (ui (step (Resolve (List.length (inflight w) - 1) (ok (Some data)))
                (run feed w')))
       = data.
Proof.
  intros Hi Hr w'.
  assert (Hw' : inflight w' = without i (inflight w) ++ [AwaitFetch]).
  { subst w'. rewrite (resolve_at _ _ _ _ Hi). simpl.
    unfold handleAddBookmark_resume. rewrite Hr. reflexivity. }
  repeat split.
  - subst w'. rewrite (resolve_at _ _ _ _ Hi). simpl.
    unfold handleAddBookmark_resume. rewrite Hr. reflexivity.
  - subst w'. rewrite (resolve_at _ _ _ _ Hi). simpl.
    unfold handleAddBookmark_resume. rewrite Hr. reflexivity.
  - exact Hw'.
  - intros feed data Hfeed.
    destruct (feed_frame feed w' Hfeed) as [Hin _].
    assert (Hj : nth_error (inflight (run feed w'))
                   (List.length (inflight w) - 1) = Some AwaitFetch).
    { rewrite Hin, Hw', <- (length_without _ _ _ Hi).
      rewrite nth_error_app2, Nat.sub_diag by lia. reflexivity. }
    rewrite (resolve_at _ _ _ _ Hj). reflexivity.
Qed.

Lemma create_success_refetches_witness :
  sent
    (step (Resolve 0 (ok None))
       (step (Submit alice) (formWorld "example.com" "Example")))
  = [Supabase.insert bookmarksTable
       {| Supabase.url := JS.lit "https://example.com";
          Supabase.title := JS.lit "Example";
          Supabase.user_id := JS.lit "u1" |};
     Supabase.select bookmarksTable (JS.lit "*")
       [Supabase.eq (JS.lit "user_id") (JS.lit "u1")]
       (Some {| Supabase.column := JS.lit "created_at";
                Supabase.ascending := false |})]
  /\ bookmarks
       (ui (step (Resolve 0 (ok (Some [bookmark1])))
              (run [FeedInsert bookmark2]
                 (step (Resolve 0 (ok None))
                    (step (Submit alice)
                       (formWorld "example.com" "Example"))))))
     = [bookmark1].
Proof.
  pose proof (create_success_refetches alice 0 (ok None)
                (step (Submit alice) (formWorld "example.com" "Example"))
                eq_refl eq_refl) as [_ [Hsent [_ Hsnapshot]]].
  specialize (Hsnapshot [FeedInsert bookmark2] [bookmark1] eq_refl).
  split; [exact Hsent | exact Hsnapshot].
Defined.




(** ** Errors *)




(** The result of the delete request is not read: a failed delete leaves no
    message either. *)
Example delete_failure_not_read :
  errorMsg
    (ui (run [ClickDelete (JS.lit "1"); Resolve 0 (failed "denied")]
           initialWorld))
  = None.
Proof. reflexivity. Qed.

(** ** [handleDeleteBookmark] *)

(** C8, as the code has it.  A click on delete sends one delete request on
    the bookmarks table whose only filter is the id of the record; the
    request has no filter on [user_id], for any user. *)
Theorem delete_request (id : jsstring) (w : World) :
  sent (step (ClickDelete id) w)
  = sent w ++ [Supabase.delete bookmarksTable [Supabase.eq (JS.lit "id") id]]
  /\ filtersBy (JS.lit "id") id
       (Supabase.delete bookmarksTable [Supabase.eq (JS.lit "id") id]) = true
  /\ forall uid,
       filtersBy (JS.lit "user_id") uid
         (Supabase.delete bookmarksTable [Supabase.eq (JS.lit "id") id])
       = false.
Proof.
  repeat split.
  unfold filtersBy; simpl. rewrite JS_eqb_refl; reflexivity.
Qed.

(** C8, as stated, fails: the delete request of a component mounted for
    [alice] is filtered by the id alone, where the snapshot query is
    filtered by her id. *)
Lemma delete_not_scoped_to_user :
  sent (run [Effect alice; Resolve 0 (ok (Some [bookmark1]));
             ClickDelete (JS.lit "1")]
          initialWorld)
  = [Supabase.select bookmarksTable (JS.lit "*")
       [Supabase.eq (JS.lit "user_id") (JS.lit "u1")]
       (Some {| Supabase.column := JS.lit "created_at";
                Supabase.ascending := false |});
     Supabase.delete bookmarksTable
       [Supabase.eq (JS.lit "id") (JS.lit "1")]]
  /\ filtersBy (JS.lit "user_id") (User.id alice)
       (Supabase.delete bookmarksTable
          [Supabase.eq (JS.lit "id") (JS.lit "1")])
     = false.
Proof. split; reflexivity. Qed.

(** C10. A click on delete sets [deletingId] and sends the delete request;
    when the request resolves, whatever its result, [deletingId] is cleared.
    Neither step touches the collection or any other state, and no query for
    the bookmarks goes out.  The bookmark leaves the collection when the
    [DELETE] change arrives on the channel. *)
Theorem delete_waits_for_feed (id : jsstring) (w : World) :
  let w1 := step (ClickDelete id) w in
  bookmarks (ui w1) = bookmarks (ui w)
  /\ deletingId (ui w1) = Some id
  /\ (url (ui w1), title (ui w1), loading (ui w1), adding (ui w1),
      showForm (ui w1), errorMsg (ui w1))
     = (url (ui w), title (ui w), loading (ui w), adding (ui w),
        showForm (ui w), errorMsg (ui w))
  /\ sent w1
     = sent w ++ [Supabase.delete bookmarksTable
                    [Supabase.eq (JS.lit "id") id]]
  /\ inflight w1 = inflight w ++ [AwaitDelete]
  /\ (forall r,
        let w2 := step (Resolve (List.length (inflight w)) r) w1 in
        bookmarks (ui w2) = bookmarks (ui w)
        /\ deletingId (ui w2) = None
        /\ (url (ui w2), title (ui w2), loading (ui w2), adding (ui w2),
            showForm (ui w2), errorMsg (ui w2))
           = (url (ui w), title (ui w), loading (ui w), adding (ui w),
              showForm (ui w), errorMsg (ui w))
        /\ sent w2 = sent w1)
  /\ (listens Supabase.DELETE w = true ->
      bookmarks (ui (step (FeedDelete id) w)) = onDelete id (bookmarks (ui w))
      /\ hasId id (bookmarks (ui (step (FeedDelete id) w))) = false).
Proof.
  assert (Hj : nth_error (inflight (step (ClickDelete id) w))
                 (List.length (inflight w)) = Some AwaitDelete).
  { simpl. rewrite nth_error_app2, Nat.sub_diag by lia. reflexivity. }
  cbv zeta. repeat split;
    try (rewrite (resolve_at _ _ _ _ Hj); reflexivity);
    match goal with
    | Hl : listens _ _ = true |- _ =>
        simpl; unfold deliver; rewrite Hl; simpl
    end;
    [reflexivity | apply hasId_onDelete].
Qed.

Lemma delete_waits_for_feed_witness :
  bookmarks
    (ui (step (FeedDelete (JS.lit "1"))
           (setBookmarks (fun _ => [bookmark2; bookmark1])
              (step (Effect alice) initialWorld))))
  = [bookmark2].
Proof.
  pose proof
    (delete_waits_for_feed (JS.lit "1")
       (setBookmarks (fun _ => [bookmark2; bookmark1])
          (step (Effect alice) initialWorld)))
    as [_ [_ [_ [_ [_ [_ Hfeed]]]]]].
  destruct (Hfeed eq_refl) as [Hgone _].
  exact Hgone.
Defined.

(** ** The effect cleanup *)

Lemma react_rerun (user : User) (c : Component) :
  phase c = Mounted ->
  react (Rerun user) c
  = {| phase := Mounted;
       world := step (Effect user) (step Cleanup (world c)) |}.
Proof. intros H. unfold react. rewrite H. reflexivity. Qed.

Lemma react_unmount (c : Component) :
  phase c = Mounted ->
  react Unmount c
  = {| phase := Unmounted; world := step Cleanup (world c) |}.
Proof. intros H. unfold react. rewrite H. reflexivity. Qed.

(** C9, as the code has it.  The cleanup of the effect removes the channel
    and nothing else: the state, the requests and the promises in flight are
    what they were, and changes of the feed no longer reach the component.
    No guard stands between a promise and its continuation.  When the effect
    is run again, for the same or for another user, the collection is not
    emptied, the promises from before are still in flight, and they do what
    they always do: a snapshot asked for before the cleanup that resolves
    with rows becomes the collection, and an insert from before that
    resolves well sends the query of its own user.  Only after the unmount
    does a late result leave the state alone, and that is React dropping the
    update: the continuation runs all the same. *)
Theorem cleanup_keeps_callbacks (user : User) (i : nat) (c : Component) :
  phase c = Mounted ->
  let w := world c in
  (ui (step Cleanup w) = ui w
   /\ sent (step Cleanup w) = sent w
   /\ inflight (step Cleanup w) = inflight w
   /\ channel (step Cleanup w) = None
   /\ forall e, isFeed e = true -> step e (step Cleanup w) = step Cleanup w)
  /\ (let c' := react (Rerun user) c in
      phase c' = Mounted
      /\ bookmarks (ui (world c')) = bookmarks (ui w)
      /\ inflight (world c') = inflight w ++ [AwaitFetch]
      /\ channel (world c') = Some (realtimeChannel user)
      /\ (forall data,
            nth_error (inflight w) i = Some AwaitFetch ->
            bookmarks
              (ui (world (react (Callback (Resolve i (ok (Some data)))) c')))
            = data)
      /\ (forall r err,
            nth_error (inflight w) i = Some AwaitFetch ->
            Supabase.error r = Some err ->
            errorMsg (ui (world (react (Callback (Resolve i r)) c')))
            = Some (Supabase.message err))
      /\ (forall r user0,
            nth_error (inflight w) i = Some (AwaitInsert user0) ->
            Supabase.error r = None ->
            sent (world (react (Callback (Resolve i r)) c'))
            = sent (world c')
                ++ [Supabase.select bookmarksTable (JS.lit "*")
                      [Supabase.eq (JS.lit "user_id") (User.id user0)]
                      (Some {| Supabase.column := JS.lit "created_at";
                               Supabase.ascending := false |})]))
  /\ (let c' := react Unmount c in
      phase c' = Unmounted
      /\ channel (world c') = None
      /\ (forall r, ui (world (react (Callback (Resolve i r)) c')) = ui w)
      /\ (forall r user0,
            nth_error (inflight w) i = Some (AwaitInsert user0) ->
            Supabase.error r = None ->
            sent (world (react (Callback (Resolve i r)) c'))
            = sent w
                ++ [Supabase.select bookmarksTable (JS.lit "*")
                      [Supabase.eq (JS.lit "user_id") (User.id user0)]
                      (Some {| Supabase.column := JS.lit "created_at";
                               Supabase.ascending := false |})])).
Proof.
  intros Hm. cbv zeta.
  assert (Hlater : forall k, nth_error (inflight (world c)) i = Some k ->
            nth_error (inflight (world c) ++ [AwaitFetch]) i = Some k).
  { intros k Hk. rewrite nth_error_app1; [exact Hk|].
    apply nth_error_Some. congruence. }
  rewrite (react_rerun user c Hm), (react_unmount c Hm).
  split; [|split].
  - repeat split. intros e He. destruct e; try discriminate; reflexivity.
  - split; [reflexivity|]. split; [reflexivity|].
    split; [reflexivity|]. split; [reflexivity|].
    split; [|split].
    + intros data Hi. simpl. unfold resolve; simpl.
      rewrite (Hlater _ Hi). reflexivity.
    + intros r err Hi Hr. simpl. unfold resolve; simpl.
      rewrite (Hlater _ Hi). simpl. unfold fetchBookmarks_resume.
      rewrite Hr. reflexivity.
    + intros r user0 Hi Hr. simpl. unfold resolve; simpl.
      rewrite (Hlater _ Hi). simpl. unfold handleAddBookmark_resume.
      rewrite Hr. reflexivity.
  - split; [reflexivity|]. split; [reflexivity|]. split.
    + intros r. reflexivity.
    + intros r user0 Hi Hr. simpl. unfold resolve; simpl.
      rewrite Hi. simpl. unfold handleAddBookmark_resume.
      rewrite Hr. reflexivity.
Qed.

Lemma cleanup_keeps_callbacks_witness :
  bookmarks
    (ui (world
           (react (Callback (Resolve 0 (ok (Some [bookmark1]))))
              (react (Rerun bob) (react (Mount alice) freshComponent)))))
  = [bookmark1]
  /\ ui (world
           (react (Callback (Resolve 0 (ok (Some [bookmark1]))))
              (react Unmount (react (Mount alice) freshComponent))))
     = ui (world (react (Mount alice) freshComponent)).
Proof.
  pose proof
    (cleanup_keeps_callbacks bob 0 (react (Mount alice) freshComponent)
       eq_refl) as [_ [[_ [_ [_ [_ [Hsnapshot _]]]]] [_ [_ [Hgone _]]]]].
  split.
  - exact (Hsnapshot [bookmark1] eq_refl).
  - exact (Hgone (ok (Some [bookmark1]))).
Defined.

(** C9, as stated, fails: the effect runs for [alice] and, her snapshot
    still in flight, is cleaned up and run again for [bob]; the collection is
    empty then.  When the snapshot of [alice] resolves, her bookmark fills
    the collection of the component, now of [bob]. *)
Lemma stale_snapshot_applied :
  bookmarks
    (ui (world (reactRun [Mount alice; Rerun bob] freshComponent))) = []
  /\ phase
       (reactRun [Mount alice; Rerun bob;
                  Callback (Resolve 0 (ok (Some [bookmark1])))]
          freshComponent)
     = Mounted
  /\ bookmarks
       (ui (world
              (reactRun [Mount alice; Rerun bob;
                         Callback (Resolve 0 (ok (Some [bookmark1])))]
                 freshComponent)))
     = [bookmark1]
  /\ bookmarks
       (ui (run [Effect alice; Cleanup; Effect bob;
                 Resolve 0 (ok (Some [bookmark1]))]
              initialWorld))
     = [bookmark1]
  /\ bookmarks
       (ui (world
              (reactRun [Mount alice; Rerun bob;
                         Callback (Resolve 0 (ok (Some [bookmark1])))]
                 freshComponent)))
     <> [].
Proof. repeat split; try reflexivity; discriminate. Qed.

(** * Further properties of the component *)

(** ** Membership and size of the collection *)

(** Looking an id up after an [INSERT]: the id of the record is there, and
    any other id is there exactly when it was. *)
Theorem hasId_onInsert (x : jsstring) (r : Bookmark) (prev : list Bookmark) :
  hasId x (onInsert r prev) = JS.eqb (Bookmark.id r) x || hasId x prev.
Proof.
  unfold onInsert.
  destruct (hasId (Bookmark.id r) prev) eqn:H; [|reflexivity].
  destruct (JS.eqb (Bookmark.id r) x) eqn:E; [|reflexivity].
  apply JS_eqb_eq in E; subst x. exact H.
Qed.

(** Looking an id up after a [DELETE]: the deleted id is gone, and any other
    id is there exactly when it was. *)
Theorem hasId_onDelete_other (x old_id : jsstring) (prev : list Bookmark) :
  hasId x (onDelete old_id prev) = negb (JS.eqb x old_id) && hasId x prev.
Proof.
  induction prev as [|b prev IH]; simpl; [symmetry; apply andb_false_r|].
  destruct (JS.eqb (Bookmark.id b) old_id) eqn:Hb; simpl.
  - rewrite IH. destruct (JS.eqb (Bookmark.id b) x) eqn:Hx; [|reflexivity].
    apply JS_eqb_eq in Hb, Hx; subst. rewrite JS_eqb_refl; reflexivity.
  - rewrite IH. destruct (JS.eqb (Bookmark.id b) x) eqn:Hx; [|reflexivity].
    apply JS_eqb_eq in Hx; subst x. rewrite Hb; reflexivity.
Qed.

Lemma distinctIds_onInsert (r : Bookmark) (l : list Bookmark) :
  distinctIds l = true -> distinctIds (onInsert r l) = true.
Proof.
  intros H. unfold onInsert.
  destruct (hasId (Bookmark.id r) l) eqn:E; [exact H|].
  simpl. rewrite E, H; reflexivity.
Qed.

Lemma distinctIds_onDelete (old_id : jsstring) (l : list Bookmark) :
  distinctIds l = true -> distinctIds (onDelete old_id l) = true.
Proof.
  induction l as [|b l IH]; [reflexivity|].
  simpl. intros H. apply andb_true_iff in H as [Hb Hl].
  destruct (negb (JS.eqb (Bookmark.id b) old_id)); simpl; auto.
  rewrite (IH Hl), andb_true_r.
  change (filter _ l) with (onDelete old_id l).
  rewrite hasId_onDelete_other.
  apply negb_true_iff in Hb; rewrite Hb, andb_false_r; reflexivity.
Qed.

Lemma step_keeps_distinct (e : Event) (w : World) :
  distinctIds (bookmarks (ui w)) = true -> keepsDistinct w e = true ->
  distinctIds (bookmarks (ui (step e w))) = true.
Proof.
  intros Hs Hk. destruct e; simpl in *; auto.
  - unfold deliver. destruct (listens Supabase.INSERT w); auto.
    simpl. apply distinctIds_onInsert; auto.
  - unfold deliver. destruct (listens Supabase.DELETE w); auto.
    simpl. apply distinctIds_onDelete; auto.
  - unfold channelStatus. destruct (channel w); auto.
  - unfold handleAddBookmark.
    destruct (negb (JS.truthy (JS.trim (url (ui w))))
              || negb (JS.truthy (JS.trim (title (ui w))))); auto.
  - unfold resolve. destruct (nth_error (inflight w) i) as [k|]; auto.
    destruct k, r as [data [error|]]; simpl in *; auto;
      destruct data; simpl; auto.
Qed.

(** No bookmark is listed twice: when the ids of the collection are pairwise
    different and every snapshot that resolves has rows of pairwise different
    ids, the ids of the collection are pairwise different after any sequence
    of events. *)
Theorem ids_stay_distinct (es : list Event) (w : World) :
  distinctIds (bookmarks (ui w)) = true -> distinctly es w = true ->
  distinctIds (bookmarks (ui (run es w))) = true.
Proof.
  revert w; induction es as [|e es IH]; intros w Hs Ho; [exact Hs|].
  simpl in Ho. apply andb_true_iff in Ho as [Hk Ho].
  simpl. apply IH; [apply step_keeps_distinct|]; assumption.
Qed.

Lemma ids_stay_distinct_witness :
  distinctIds
    (bookmarks
       (ui (run [Effect alice; FeedInsert bookmark1;
                 Resolve 0 (ok (Some [bookmark2; bookmark1]));
                 FeedInsert bookmark1; FeedInsert bookmark2]
              initialWorld))) = true.
Proof.
  apply (ids_stay_distinct
           [Effect alice; FeedInsert bookmark1;
            Resolve 0 (ok (Some [bookmark2; bookmark1]));
            FeedInsert bookmark1; FeedInsert bookmark2]
           initialWorld); reflexivity.
Defined.

(** The number of bookmarks shown: an [INSERT] adds one exactly when the id
    is new; with pairwise different ids a [DELETE] takes one away exactly
    when the id is there, so a repeated [DELETE] does not count twice. *)
Theorem count_after_feed (r : Bookmark) (old_id : jsstring)
  (prev : list Bookmark) :
  distinctIds prev = true ->
  List.length (onInsert r prev)
  = (if hasId (Bookmark.id r) prev then 0 else 1) + List.length prev
  /\ List.length (onDelete old_id prev)
       + (if hasId old_id prev then 1 else 0)
     = List.length prev
  /\ List.length (onDelete old_id (onDelete old_id prev))
     = List.length (onDelete old_id prev).
Proof.
  intros Hd. split; [|split].
  - unfold onInsert. destruct (hasId (Bookmark.id r) prev); reflexivity.
  - induction prev as [|b prev IH]; [reflexivity|].
    simpl in Hd. apply andb_true_iff in Hd as [Hb Hd].
    specialize (IH Hd). simpl.
    destruct (JS.eqb (Bookmark.id b) old_id) eqn:E; simpl.
    + apply JS_eqb_eq in E; subst old_id.
      apply negb_true_iff in Hb.
      change (filter _ prev) with (onDelete (Bookmark.id b) prev).
      rewrite (onDelete_absent _ _ Hb). lia.
    + change (filter _ prev) with (onDelete old_id prev). lia.
  - rewrite (onDelete_absent _ _ (hasId_onDelete old_id prev)). reflexivity.
Qed.

Lemma count_after_feed_witness :
  List.length (onDelete (JS.lit "1") [bookmark2; bookmark1]) + 1 = 2.
Proof.
  exact (proj1 (proj2 (count_after_feed bookmark1 (JS.lit "1")
                         [bookmark2; bookmark1] eq_refl))).
Defined.

(** ** Changes of the feed in another order *)

(** Changes that concern different ids can arrive in either order: two
    [DELETE]s commute, and so do an [INSERT] and a [DELETE] of another id. *)
Theorem feed_commutes (r : Bookmark) (d d' : jsstring) (prev : list Bookmark) :
  Bookmark.id r <> d ->
  onDelete d (onInsert r prev) = onInsert r (onDelete d prev)
  /\ onDelete d (onDelete d' prev) = onDelete d' (onDelete d prev).
Proof.
  intros Hne. apply JS_eqb_neq in Hne. split.
  - unfold onInsert. rewrite hasId_onDelete_other, Hne. simpl negb.
    rewrite andb_true_l.
    destruct (hasId (Bookmark.id r) prev); [reflexivity|].
    simpl. rewrite Hne. reflexivity.
  - induction prev as [|b prev IH]; [reflexivity|]. simpl.
    destruct (JS.eqb (Bookmark.id b) d) eqn:E;
      destruct (JS.eqb (Bookmark.id b) d') eqn:E'; simpl;
      rewrite ?E, ?E'; simpl; try exact IH.
    f_equal; exact IH.
Qed.

Lemma feed_commutes_witness :
  onDelete (JS.lit "1") (onInsert bookmark2 [bookmark1])
  = onInsert bookmark2 (onDelete (JS.lit "1") [bookmark1]).
Proof.
  apply (feed_commutes bookmark2 (JS.lit "1") (JS.lit "1") [bookmark1]).
  discriminate.
Defined.

(** For one and the same id the order matters: an [INSERT] followed by its
    [DELETE] leaves no bookmark of that id, a [DELETE] followed by the
    [INSERT] leaves the record at the front. *)
Theorem insert_after_delete_stays (r : Bookmark) (prev : list Bookmark) :
  onDelete (Bookmark.id r) (onInsert r prev) = onDelete (Bookmark.id r) prev
  /\ onInsert r (onDelete (Bookmark.id r) prev)
     = r :: onDelete (Bookmark.id r) prev
  /\ hasId (Bookmark.id r) (onDelete (Bookmark.id r) (onInsert r prev))
     = false
  /\ hasId (Bookmark.id r) (onInsert r (onDelete (Bookmark.id r) prev))
     = true.
Proof.
  assert (H1 : onDelete (Bookmark.id r) (onInsert r prev)
               = onDelete (Bookmark.id r) prev).
  { unfold onInsert. destruct (hasId (Bookmark.id r) prev); [reflexivity|].
    simpl. rewrite JS_eqb_refl. reflexivity. }
  assert (H2 : onInsert r (onDelete (Bookmark.id r) prev)
               = r :: onDelete (Bookmark.id r) prev).
  { unfold onInsert. rewrite hasId_onDelete. reflexivity. }
  split; [exact H1|]. split; [exact H2|]. split.
  - rewrite H1. apply hasId_onDelete.
  - rewrite H2. simpl. rewrite JS_eqb_refl. reflexivity.
Qed.

(** ** The loading flag and the snapshot *)

(** [loading] is only ever cleared: once it is false no event sets it again,
    so the re-fetch after a create shows no spinner. *)
Theorem loading_stays_cleared (es : list Event) (w : World) :
  loading (ui w) = false -> loading (ui (run es w)) = false.
Proof.
  revert w; induction es as [|e es IH]; intros w H; [exact H|].
  simpl. apply IH.
  destruct e; simpl; auto.
  - unfold deliver. destruct (listens Supabase.INSERT w); auto.
  - unfold deliver. destruct (listens Supabase.DELETE w); auto.
  - unfold channelStatus. destruct (channel w); auto.
  - unfold handleAddBookmark.
    destruct (negb (JS.truthy (JS.trim (url (ui w))))
              || negb (JS.truthy (JS.trim (title (ui w))))); auto.
  - unfold resolve. destruct (nth_error (inflight w) i) as [k|]; auto.
    destruct k, r as [data [error|]]; simpl; auto;
      destruct data; reflexivity.
Qed.

Lemma loading_stays_cleared_witness :
  loading
    (ui (run [Submit alice; Resolve 0 (ok None)]
           (step (Resolve 0 (ok (Some [bookmark1])))
              (step (Effect alice) (formWorld "example.com" "Example")))))
  = false.
Proof.
  apply (loading_stays_cleared [Submit alice; Resolve 0 (ok None)]
           (step (Resolve 0 (ok (Some [bookmark1])))
              (step (Effect alice) (formWorld "example.com" "Example")))).
  reflexivity.
Defined.

(** When a snapshot query resolves, [loading] is cleared whatever the
    result.  With an error the collection keeps the rows it had and the
    message of the error is shown; the same rows are kept when the result has
    neither an error nor rows. *)
Theorem snapshot_resolved
  (i : nat) (r : Supabase.Response) (w : World) :
  nth_error (inflight w) i = Some AwaitFetch ->
  let w' := step (Resolve i r) w in
  loading (ui w') = false
  /\ sent w' = sent w
  /\ inflight w' = without i (inflight w)
  /\ (forall err, Supabase.error r = Some err ->
        bookmarks (ui w') = bookmarks (ui w)
        /\ errorMsg (ui w') = Some (Supabase.message err))
  /\ (Supabase.error r = None -> Supabase.data r = None ->
        ui w' = ui (setLoading false w))
  /\ (forall data, Supabase.error r = None -> Supabase.data r = Some data ->
        bookmarks (ui w') = data /\ errorMsg (ui w') = errorMsg (ui w)).
Proof.
  intros Hi w'; subst w'. rewrite (resolve_at _ _ _ _ Hi). simpl.
  unfold fetchBookmarks_resume.
  destruct r as [data error]; simpl.
  destruct error as [e|], data as [d|]; simpl;
    repeat split; intros; try discriminate;
    repeat match goal with H : Some _ = Some _ |- _ =>
             injection H as <- end;
    reflexivity.
Qed.

Lemma snapshot_resolved_witness :
  bookmarks
    (ui (step (Resolve 0 (failed "offline"))
           (fetchBookmarks alice
              (setBookmarks (fun _ => [bookmark1]) initialWorld))))
  = [bookmark1].
Proof.
  pose proof
    (snapshot_resolved 0 (failed "offline")
       (fetchBookmarks alice
          (setBookmarks (fun _ => [bookmark1]) initialWorld))
       eq_refl) as [_ [_ [_ [Herr _]]]].
  exact (proj1 (Herr {| Supabase.message := JS.lit "offline" |} eq_refl)).
Defined.

(** ** [trim] *)

Lemma trimStart_nil (s : jsstring) :
  JS.trimStart s = [] <-> forallb JS.isWhiteSpace s = true.
Proof.
  induction s as [|c s IH]; simpl; [tauto|].
  destruct (JS.isWhiteSpace c); simpl; [exact IH|].
  split; discriminate.
Qed.

Lemma trimStart_headOk (s : jsstring) : headOk (JS.trimStart s) = true.
Proof.
  induction s as [|c s IH]; simpl; [reflexivity|].
  destruct (JS.isWhiteSpace c) eqn:E; [exact IH|].
  simpl. rewrite E. reflexivity.
Qed.

Lemma trimStart_id (s : jsstring) : headOk s = true -> JS.trimStart s = s.
Proof.
  destruct s as [|c s]; simpl; [reflexivity|].
  intros H. apply negb_true_iff in H. rewrite H. reflexivity.
Qed.

Lemma trimStart_split (s : jsstring) :
  exists p, s = p ++ JS.trimStart s /\ forallb JS.isWhiteSpace p = true.
Proof.
  induction s as [|c s [p [Hs Hp]]]; simpl; [exists []; auto|].
  destruct (JS.isWhiteSpace c) eqn:E.
  - exists (c :: p). simpl. rewrite E, Hp. split; [f_equal; exact Hs|reflexivity].
  - exists []. auto.
Qed.

Lemma forallb_rev (f : N -> bool) (l : list N) :
  forallb f (rev l) = forallb f l.
Proof.
  induction l as [|x l IH]; [reflexivity|].
  simpl. rewrite forallb_app, IH. simpl. rewrite andb_true_r. apply andb_comm.
Qed.

Lemma trimEnd_split (s : jsstring) :
  exists q, s = JS.trimEnd s ++ q /\ forallb JS.isWhiteSpace q = true.
Proof.
  destruct (trimStart_split (rev s)) as [p [Hs Hp]].
  exists (rev p). split; [|rewrite forallb_rev; exact Hp].
  unfold JS.trimEnd. rewrite <- rev_app_distr, <- Hs, rev_involutive.
  reflexivity.
Qed.

Lemma trimEnd_lastOk (s : jsstring) : lastOk (JS.trimEnd s) = true.
Proof.
  unfold lastOk, JS.trimEnd. rewrite rev_involutive. apply trimStart_headOk.
Qed.

Lemma trimEnd_id (s : jsstring) : lastOk s = true -> JS.trimEnd s = s.
Proof.
  unfold lastOk, JS.trimEnd. intros H.
  rewrite (trimStart_id _ H). apply rev_involutive.
Qed.

Lemma trimEnd_headOk (s : jsstring) :
  headOk s = true -> headOk (JS.trimEnd s) = true.
Proof.
  intros H. destruct (trimEnd_split s) as [q [Hs _]].
  destruct (JS.trimEnd s) as [|c t]; [reflexivity|].
  rewrite Hs in H. exact H.
Qed.

Lemma trim_edges (s : jsstring) :
  headOk (JS.trim s) = true /\ lastOk (JS.trim s) = true.
Proof.
  unfold JS.trim. split.
  - apply trimEnd_headOk, trimStart_headOk.
  - apply trimEnd_lastOk.
Qed.

Lemma trim_id (s : jsstring) :
  headOk s = true -> lastOk s = true -> JS.trim s = s.
Proof.
  intros Hh Hl. unfold JS.trim. rewrite (trimStart_id _ Hh).
  apply trimEnd_id, Hl.
Qed.

Lemma trim_nil (s : jsstring) :
  JS.trim s = [] <-> forallb JS.isWhiteSpace s = true.
Proof.
  split.
  - intros H. apply trimStart_nil.
    destruct (trimEnd_split (JS.trimStart s)) as [q [Hs Hq]].
    fold (JS.trim s) in Hs. rewrite H in Hs. simpl in Hs.
    pose proof (trimStart_headOk s) as Hh.
    destruct (JS.trimStart s) as [|c t]; [reflexivity|].
    subst q. simpl in Hq, Hh.
    apply andb_true_iff in Hq as [Hc _]. rewrite Hc in Hh. discriminate.
  - intros H. apply trimStart_nil in H. unfold JS.trim. rewrite H.
    reflexivity.
Qed.

(** What [trim] gives the handlers: the result neither begins nor ends with
    white space, trimming it again changes nothing, and it is empty exactly
    when the string is made of white space only. *)
Lemma trim_spec (s : jsstring) :
  headOk (JS.trim s) = true
  /\ lastOk (JS.trim s) = true
  /\ JS.trim (JS.trim s) = JS.trim s
  /\ (JS.trim s = [] <-> forallb JS.isWhiteSpace s = true)
  /\ exists p q, s = p ++ JS.trim s ++ q
                 /\ forallb JS.isWhiteSpace p = true
                 /\ forallb JS.isWhiteSpace q = true.
Proof.
  destruct (trim_edges s) as [Hh Hl].
  split; [exact Hh|]. split; [exact Hl|].
  split; [apply trim_id; assumption|].
  split; [apply trim_nil|].
  destruct (trimStart_split s) as [p [Hs Hp]].
  destruct (trimEnd_split (JS.trimStart s)) as [q [Ht Hq]].
  exists p, q. split; [|split; assumption].
  unfold JS.trim. rewrite <- Ht. exact Hs.
Qed.

(** ** What a submit sends *)

Lemma lastOk_app (p t : jsstring) :
  t <> [] -> lastOk (p ++ t) = lastOk t.
Proof.
  intros Ht. unfold lastOk. rewrite rev_app_distr.
  destruct (rev t) as [|c t'] eqn:E; [|reflexivity].
  apply (f_equal (@rev N)) in E. rewrite rev_involutive in E. contradiction.
Qed.

Lemma startsWith_headOk (s p : jsstring) :
  JS.startsWith s p = true -> headOk p = true -> p <> [] -> headOk s = true.
Proof.
  destruct p as [|x p]; [congruence|].
  destruct s as [|y s]; simpl; [discriminate|].
  intros H Hx _. apply andb_true_iff in H as [H _].
  apply N.eqb_eq in H; subst y. exact Hx.
Qed.

Lemma finalUrl_edges (u : jsstring) :
  headOk (finalUrl u) = true /\ lastOk (finalUrl u) = true.
Proof.
  destruct (trim_edges u) as [Hh Hl].
  unfold finalUrl.
  destruct (negb (JS.startsWith (JS.trim u) (JS.lit "http://"))
            && negb (JS.startsWith (JS.trim u) (JS.lit "https://")));
    [|split; assumption].
  split; [reflexivity|].
  destruct (JS.trim u) as [|c t] eqn:E; [reflexivity|].
  rewrite lastOk_app by discriminate. exact Hl.
Qed.

(** A submit sends a request exactly when the URL and the title each hold a
    character that is not white space: with a field of white space only the
    world stays as it is, otherwise one insert goes out and the handler
    waits for it with [adding] set and the error message cleared. *)
Theorem submit_needs_text (user : User) (w : World) :
  (forallb JS.isWhiteSpace (url (ui w)) = true
   \/ forallb JS.isWhiteSpace (title (ui w)) = true ->
   step (Submit user) w = w)
  /\ (forallb JS.isWhiteSpace (url (ui w)) = false ->
      forallb JS.isWhiteSpace (title (ui w)) = false ->
      let w' := step (Submit user) w in
      List.length (sent w') = S (List.length (sent w))
      /\ inflight w' = inflight w ++ [AwaitInsert user]
      /\ adding (ui w') = true
      /\ errorMsg (ui w') = None
      /\ bookmarks (ui w') = bookmarks (ui w)).
Proof.
  split.
  - intros H. simpl; unfold handleAddBookmark.
    destruct H as [H|H]; apply trim_nil in H; rewrite H;
      [reflexivity | cbn [JS.truthy negb]; rewrite orb_true_r; reflexivity].
  - intros Hu Ht. simpl; unfold handleAddBookmark.
    destruct (JS.trim (url (ui w))) eqn:Eu;
      [apply trim_nil in Eu; congruence|].
    destruct (JS.trim (title (ui w))) eqn:Et;
      [apply trim_nil in Et; congruence|].
    simpl. rewrite length_app. simpl.
    repeat split. lia.
Qed.

Lemma submit_needs_text_witness :
  step (Submit alice) (formWorld "example.com" "  ")
  = formWorld "example.com" "  "
  /\ adding (ui (step (Submit alice) (formWorld "example.com" "Example")))
     = true.
Proof.
  destruct (submit_needs_text alice (formWorld "example.com" "  "))
    as [Hblank _].
  destruct (submit_needs_text alice (formWorld "example.com" "Example"))
    as [_ Hsend].
  split.
  - apply Hblank. right. reflexivity.
  - exact (proj1 (proj2 (proj2 (Hsend eq_refl eq_refl)))).
Defined.

(** What a submit sends is clean: the URL of the insert starts with
    ["http://"] or ["https://"], the URL and the title neither begin nor end
    with white space, the title is not empty, and the row is for the user of
    the component. *)
Theorem insert_row_clean (user : User) (w : World) (row : Supabase.Row) :
  sent (step (Submit user) w)
  = sent w ++ [Supabase.insert bookmarksTable row] ->
  (JS.startsWith (Supabase.url row) (JS.lit "http://")
   || JS.startsWith (Supabase.url row) (JS.lit "https://")) = true
  /\ headOk (Supabase.url row) = true
  /\ lastOk (Supabase.url row) = true
  /\ headOk (Supabase.title row) = true
  /\ lastOk (Supabase.title row) = true
  /\ Supabase.title row <> []
  /\ Supabase.user_id row = User.id user.
Proof.
  simpl; unfold handleAddBookmark.
  destruct (JS.truthy (JS.trim (url (ui w)))) eqn:Eu; simpl.
  2:{ intros H. rewrite <- (app_nil_r (sent w)) in H at 1.
      apply app_inv_head in H. discriminate. }
  destruct (JS.truthy (JS.trim (title (ui w)))) eqn:Et; simpl.
  2:{ intros H. rewrite <- (app_nil_r (sent w)) in H at 1.
      apply app_inv_head in H. discriminate. }
  intros H. apply app_inv_head in H. injection H as <-. simpl.
  destruct (finalUrl_edges (url (ui w))) as [Hh Hl].
  destruct (trim_edges (title (ui w))) as [Hth Htl].
  repeat split; auto.
  - apply finalUrl_has_scheme.
  - intros E. rewrite E in Et. discriminate.
Qed.

Lemma insert_row_clean_witness :
  Supabase.title
    {| Supabase.url := JS.lit "https://example.com";
       Supabase.title := JS.lit "Example";
       Supabase.user_id := JS.lit "u1" |} <> [].
Proof.
  exact (proj1 (proj2 (proj2 (proj2 (proj2 (proj2
    (insert_row_clean alice (formWorld " example.com" "Example ")
       {| Supabase.url := JS.lit "https://example.com";
          Supabase.title := JS.lit "Example";
          Supabase.user_id := JS.lit "u1" |} eq_refl))))))).
Defined.

(** [finalUrl] is stable: applied to a URL it has produced it returns that
    URL. *)
Theorem finalUrl_idempotent (u : jsstring) :
  finalUrl (finalUrl u) = finalUrl u.
Proof.
  destruct (finalUrl_edges u) as [Hh Hl].
  pose proof (finalUrl_has_scheme u) as Hs.
  unfold finalUrl at 1. rewrite (trim_id _ Hh Hl).
  apply orb_true_iff in Hs as [Hs|Hs]; rewrite Hs; simpl;
    [reflexivity | rewrite andb_false_r; reflexivity].
Qed.

(** ** The buttons *)

Lemma nth_error_last (k : Pending) (l : list Pending) :
  nth_error (l ++ [k]) (List.length l) = Some k.
Proof. rewrite nth_error_app2, Nat.sub_diag by lia. reflexivity. Qed.

Lemma without_parked (k : Pending) (l rest : list Pending) :
  without (List.length l) (l ++ k :: rest) = l ++ rest.
Proof.
  unfold without. induction l as [|x l IH]; [reflexivity|].
  simpl. f_equal. exact IH.
Qed.

Lemma pending_without (i : nat) (k : Pending) (l : list Pending) :
  nth_error l i = Some k ->
  List.length (filter isInsertPending (without i l))
  + (if isInsertPending k then 1 else 0)
  = List.length (filter isInsertPending l).
Proof.
  unfold without. revert i; induction l as [|x l IH]; intros i H.
  - destruct i; discriminate.
  - destruct i as [|i].
    + injection H as ->. simpl. destruct (isInsertPending k); simpl; lia.
    + simpl in H. specialize (IH i H).
      change (firstn (S i) (x :: l) ++ skipn (S (S i)) (x :: l))
        with (x :: (firstn i l ++ skipn (S i) l)).
      cbn [filter]. destruct (isInsertPending x); cbn [List.length]; lia.
Qed.

Lemma pending_parked (k : Pending) (l : list Pending) :
  List.length (filter isInsertPending (l ++ [k]))
  = List.length (filter isInsertPending l)
    + (if isInsertPending k then 1 else 0).
Proof.
  rewrite filter_app, length_app. simpl.
  destruct (isInsertPending k); reflexivity.
Qed.

Lemma step_oneInsert (e : Event) (w : World) :
  isSubmit e = false -> oneInsert w -> oneInsert (step e w).
Proof.
  unfold oneInsert, insertsInFlight. intros He H.
  destruct e; try discriminate; simpl.
  - rewrite pending_parked. simpl. rewrite Nat.add_0_r. exact H.
  - exact H.
  - unfold deliver. destruct (listens Supabase.INSERT w); exact H.
  - unfold deliver. destruct (listens Supabase.DELETE w); exact H.
  - unfold channelStatus. destruct (channel w); exact H.
  - rewrite pending_parked. simpl. rewrite Nat.add_0_r. exact H.
  - unfold resolve. destruct (nth_error (inflight w) i) as [k|] eqn:Ek;
      [|exact H].
    pose proof (pending_without i k (inflight w) Ek) as Hc.
    destruct k; simpl in *.
    + unfold fetchBookmarks_resume.
      destruct (Supabase.error r); [|destruct (Supabase.data r)]; simpl;
        rewrite Nat.add_0_r in Hc; rewrite Hc; exact H.
    + left. unfold handleAddBookmark_resume.
      destruct (Supabase.error r); simpl; rewrite ?pending_parked; simpl;
        lia.
    + rewrite Nat.add_0_r in Hc; rewrite Hc; exact H.
  - exact H.
  - exact H.
  - exact H.
  - exact H.
Qed.

Lemma run_oneInsert (es : list Event) (w : World) :
  existsb isSubmit es = false -> oneInsert w -> oneInsert (run es w).
Proof.
  revert w; induction es as [|e es IH]; intros w Hes H; [exact H|].
  simpl in Hes. apply orb_false_iff in Hes as [He Hes].
  simpl. apply IH; [exact Hes|]. apply step_oneInsert; assumption.
Qed.

(** The submit button and the handler agree.  With the button enabled and no
    insert in flight, a submit sends exactly one insert and disables the
    button; the button is disabled for as long as that insert is in flight,
    whatever else happens short of another call of the handler, and [adding]
    is cleared when the insert resolves, whatever the result.  While the
    button is disabled with no insert under way, a submit does nothing. *)
Theorem submit_button (user : User) (w : World) :
  (submitDisabled (ui w) = false -> insertsInFlight w = 0 ->
   let w' := step (Submit user) w in
   List.length (sent w') = S (List.length (sent w))
   /\ inflight w' = inflight w ++ [AwaitInsert user]
   /\ submitDisabled (ui w') = true
   /\ (forall es,
         existsb isSubmit es = false ->
         insertsInFlight (run es w') <> 0 ->
         submitDisabled (ui (run es w')) = true)
   /\ forall r,
        adding (ui (step (Resolve (List.length (inflight w)) r) w')) = false)
  /\ (submitDisabled (ui w) = true -> adding (ui w) = false ->
      step (Submit user) w = w).
Proof.
  unfold submitDisabled. split.
  - intros H Hnone. apply orb_false_iff in H as [H Ht].
    apply orb_false_iff in H as [Ha Hu].
    assert (Hw : step (Submit user) w
                 = (setAdding true ;; setErrorMsg None ;;
                    await
                      (Supabase.insert bookmarksTable
                         {| Supabase.url := finalUrl (url (ui w));
                            Supabase.title := JS.trim (title (ui w));
                            Supabase.user_id := User.id user |})
                      (AwaitInsert user)) w).
    { simpl; unfold handleAddBookmark. rewrite Hu, Ht. reflexivity. }
    cbv zeta. rewrite Hw.
    split; [simpl; rewrite length_app; simpl; lia|].
    split; [reflexivity|]. split; [reflexivity|]. split.
    + intros es Hes Hfl.
      assert (H1 : oneInsert
                     ((setAdding true ;; setErrorMsg None ;;
                       await
                         (Supabase.insert bookmarksTable
                            {| Supabase.url := finalUrl (url (ui w));
                               Supabase.title := JS.trim (title (ui w));
                               Supabase.user_id := User.id user |})
                         (AwaitInsert user)) w)).
      { right. unfold insertsInFlight in *. simpl.
        rewrite pending_parked, Hnone. split; reflexivity. }
      destruct (run_oneInsert es _ Hes H1) as [H0 | [_ Hadd]];
        [contradiction|].
      rewrite Hadd. reflexivity.
    + intros r. simpl. unfold resolve; simpl. rewrite nth_error_last. simpl.
      unfold handleAddBookmark_resume.
      destruct (Supabase.error r); reflexivity.
  - intros H Ha. rewrite Ha in H. simpl in H.
    simpl; unfold handleAddBookmark. rewrite H. reflexivity.
Qed.

Lemma submit_button_witness :
  submitDisabled
    (ui (run [ChangeUrl (JS.lit "other.example"); FeedInsert bookmark1;
              ClickDelete (JS.lit "1"); Resolve 0 (ok (Some [bookmark2]))]
           (step (Submit alice)
              (step (Effect alice) (formWorld "example.com" "Example")))))
  = true
  /\ step (Submit alice) (formWorld "" "Example") = formWorld "" "Example".
Proof.
  destruct (submit_button alice
              (step (Effect alice) (formWorld "example.com" "Example")))
    as [Hon _].
  destruct (submit_button alice (formWorld "" "Example")) as [_ Hoff].
  split.
  - destruct (Hon eq_refl eq_refl) as [_ [_ [_ [Hwhile _]]]].
    apply (Hwhile [ChangeUrl (JS.lit "other.example"); FeedInsert bookmark1;
                   ClickDelete (JS.lit "1");
                   Resolve 0 (ok (Some [bookmark2]))]).
    + reflexivity.
    + discriminate.
  - exact (Hoff eq_refl eq_refl).
Defined.

(** After a create that succeeded the form is empty and closed, no error is
    shown and the submit button is disabled; a further submit does nothing
    until the user types again. *)
Theorem create_success_resets_form
  (user user' : User) (i : nat) (r : Supabase.Response) (w : World) :
  nth_error (inflight w) i = Some (AwaitInsert user) ->
  Supabase.error r = None ->
  let w' := step (Resolve i r) w in
  url (ui w') = []
  /\ title (ui w') = []
  /\ showForm (ui w') = false
  /\ adding (ui w') = false
  /\ errorMsg (ui w') = None
  /\ submitDisabled (ui w') = true
  /\ step (Submit user') w' = w'.
Proof.
  intros Hi Hr w'; subst w'. rewrite (resolve_at _ _ _ _ Hi). simpl.
  unfold handleAddBookmark_resume. rewrite Hr. repeat split.
Qed.

Lemma create_success_resets_form_witness :
  step (Submit alice)
    (step (Resolve 0 (ok None))
       (step (Submit alice) (formWorld "example.com" "Example")))
  = step (Resolve 0 (ok None))
      (step (Submit alice) (formWorld "example.com" "Example")).
Proof.
  exact (proj2 (proj2 (proj2 (proj2 (proj2 (proj2
    (create_success_resets_form alice alice 0 (ok None)
       (step (Submit alice) (formWorld "example.com" "Example"))
       eq_refl eq_refl))))))).
Defined.

(** The delete indicator is one slot.  A click disables the button of the
    clicked bookmark; a click on a bookmark of another id enables it again
    although its request is still under way; and when any delete request
    resolves the indicator is empty, so no delete button is disabled. *)
Theorem delete_indicator (b b' : Bookmark) (w : World) :
  Bookmark.id b <> Bookmark.id b' ->
  let w1 := step (ClickDelete (Bookmark.id b)) w in
  let w2 := step (ClickDelete (Bookmark.id b')) w1 in
  deleteDisabled (ui w1) b = true
  /\ deleteDisabled (ui w2) b = false
  /\ deleteDisabled (ui w2) b' = true
  /\ inflight w2 = inflight w ++ [AwaitDelete; AwaitDelete]
  /\ forall r c,
       let w3 := step (Resolve (List.length (inflight w)) r) w2 in
       deleteDisabled (ui w3) c = false
       /\ inflight w3 = inflight w ++ [AwaitDelete].
Proof.
  intros Hne. cbv zeta. simpl. unfold deleteDisabled; simpl.
  rewrite !JS_eqb_refl.
  split; [reflexivity|]. split.
  { apply JS_eqb_neq. congruence. }
  split; [reflexivity|]. split.
  { rewrite <- app_assoc. reflexivity. }
  intros r c. unfold resolve; simpl.
  rewrite <- app_assoc. simpl.
  assert (Hn : nth_error (inflight w ++ [AwaitDelete; AwaitDelete])
                 (List.length (inflight w)) = Some AwaitDelete).
  { rewrite nth_error_app2, Nat.sub_diag by lia. reflexivity. }
  rewrite Hn. simpl. split; [reflexivity|].
  rewrite without_parked. reflexivity.
Qed.

Lemma delete_indicator_witness :
  deleteDisabled
    (ui (step (ClickDelete (Bookmark.id bookmark2))
           (step (ClickDelete (Bookmark.id bookmark1)) initialWorld)))
    bookmark1 = false.
Proof.
  assert (Hne : Bookmark.id bookmark1 <> Bookmark.id bookmark2)
    by discriminate.
  exact (proj1 (proj2 (delete_indicator bookmark1 bookmark2 initialWorld Hne))).
Defined.

(** ** [formatDate] *)

Local Open Scope Z_scope.

Lemma floor_bounds (a b : Z) : 0 < b -> b * (a / b) <= a < b * (a / b) + b.
Proof.
  intros Hb. pose proof (Z.div_mod a b). pose proof (Z.mod_pos_bound a b).
  lia.
Qed.

Ltac floors diff :=
  pose proof (floor_bounds diff 60000 eq_refl);
  pose proof (floor_bounds diff 3600000 eq_refl);
  pose proof (floor_bounds diff 86400000 eq_refl).

(** A bookmark less than a minute old, or dated after the clock, is shown as
    ["Just now"]. *)
Theorem formatDate_just_now (date now : JSDate.t) :
  JSDate.getTime now - JSDate.getTime date < 60000 ->
  formatDate date now = Text (JS.lit "Just now").
Proof.
  intros H. unfold formatDate. cbv zeta.
  destruct (Z.ltb_spec ((JSDate.getTime now - JSDate.getTime date) / 60000) 1)
    as [_|Hm]; [reflexivity|].
  exfalso. floors (JSDate.getTime now - JSDate.getTime date). lia.
Qed.

Lemma formatDate_just_now_witness :
  formatDate {| JSDate.getTime := 1700000000000; JSDate.getFullYear := 2023 |}
    {| JSDate.getTime := 1700000059999; JSDate.getFullYear := 2023 |}
  = Text (JS.lit "Just now").
Proof. apply formatDate_just_now. reflexivity. Defined.

(** From one minute to less than seven days a bookmark is shown with its age
    in whole minutes (1 to 59), whole hours (1 to 23) or whole days (1 to 6),
    rounded down. *)
Theorem formatDate_relative (date now : JSDate.t) :
  let diff := JSDate.getTime now - JSDate.getTime date in
  (60000 <= diff < 3600000 ->
   formatDate date now = Text (numeral (diff / 60000) ++ JS.lit "m ago")
   /\ 1 <= diff / 60000 <= 59)
  /\ (3600000 <= diff < 86400000 ->
      formatDate date now = Text (numeral (diff / 3600000) ++ JS.lit "h ago")
      /\ 1 <= diff / 3600000 <= 23)
  /\ (86400000 <= diff < 604800000 ->
      formatDate date now = Text (numeral (diff / 86400000) ++ JS.lit "d ago")
      /\ 1 <= diff / 86400000 <= 6).
Proof.
  cbv zeta. unfold formatDate. cbv zeta.
  set (diff := JSDate.getTime now - JSDate.getTime date).
  floors diff.
  repeat split; try lia;
    destruct (Z.ltb_spec (diff / 60000) 1); try lia;
    destruct (Z.ltb_spec (diff / 60000) 60); try lia;
    destruct (Z.ltb_spec (diff / 3600000) 24); try lia;
    destruct (Z.ltb_spec (diff / 86400000) 7); try lia;
    reflexivity.
Qed.

Lemma formatDate_relative_witness :
  formatDate {| JSDate.getTime := 1700000000000; JSDate.getFullYear := 2023 |}
    {| JSDate.getTime := 1700000000000 + 7199999;
       JSDate.getFullYear := 2023 |}
  = Text (JS.lit "1h ago").
Proof.
  destruct (formatDate_relative
              {| JSDate.getTime := 1700000000000;
                 JSDate.getFullYear := 2023 |}
              {| JSDate.getTime := 1700000000000 + 7199999;
                 JSDate.getFullYear := 2023 |}) as [_ [Hh _]].
  apply Hh. simpl. lia.
Defined.

(** From seven days on the date itself is shown, with the year exactly when
    it is not the year of the clock. *)
Theorem formatDate_absolute (date now : JSDate.t) :
  604800000 <= JSDate.getTime now - JSDate.getTime date ->
  formatDate date now
  = LocaleDateString
      (if JSDate.getFullYear date =? JSDate.getFullYear now
       then None
       else Some (JS.lit "numeric")).
Proof.
  intros H. unfold formatDate. cbv zeta.
  set (diff := JSDate.getTime now - JSDate.getTime date) in *.
  floors diff.
  destruct (Z.ltb_spec (diff / 60000) 1); try lia.
  destruct (Z.ltb_spec (diff / 60000) 60); try lia.
  destruct (Z.ltb_spec (diff / 3600000) 24); try lia.
  destruct (Z.ltb_spec (diff / 86400000) 7); try lia.
  destruct (JSDate.getFullYear date =? JSDate.getFullYear now); reflexivity.
Qed.

Lemma formatDate_absolute_witness :
  formatDate {| JSDate.getTime := 1700000000000; JSDate.getFullYear := 2023 |}
    {| JSDate.getTime := 1700000000000 + 604800000;
       JSDate.getFullYear := 2023 |}
  = LocaleDateString None.
Proof. apply formatDate_absolute. simpl. lia. Defined.

Local Close Scope Z_scope.

(** ** [getDomain] *)

Lemma replace_unfold (s p r : jsstring) :
  replace s p r
  = if JS.startsWith s p then r ++ skipn (List.length p) s
    else match s with
         | [] => []
         | c :: s' => c :: replace s' p r
         end.
Proof. destruct s; reflexivity. Qed.

Lemma startsWith_prefix (s p : jsstring) :
  JS.startsWith s p = true <-> exists rest, s = p ++ rest.
Proof.
  split.
  - revert s; induction p as [|x p IH]; intros s H.
    + exists s. reflexivity.
    + destruct s as [|y s]; simpl in H; [discriminate|].
      apply andb_true_iff in H as [Hxy H]. apply N.eqb_eq in Hxy; subst y.
      destruct (IH s H) as [rest ->]. exists rest. reflexivity.
  - intros [rest ->]. apply startsWith_app.
Qed.

Lemma skipn_prefix (p rest : jsstring) : skipn (List.length p) (p ++ rest) = rest.
Proof. induction p as [|x p IH]; [reflexivity | exact IH]. Qed.

Lemma replace_first (a p b r : jsstring) :
  (forall a' b', a ++ p ++ b = a' ++ p ++ b' ->
                 (List.length a <= List.length a')%nat) ->
  replace (a ++ p ++ b) p r = a ++ r ++ b.
Proof.
  induction a as [|c a IH]; intros Hfirst; rewrite replace_unfold.
  - simpl. rewrite startsWith_app, skipn_prefix. reflexivity.
  - destruct (JS.startsWith ((c :: a) ++ p ++ b) p) eqn:E.
    + apply startsWith_prefix in E as [rest E].
      specialize (Hfirst [] rest E). simpl in Hfirst. lia.
    + simpl. f_equal. apply IH.
      intros a' b' H.
      specialize (Hfirst (c :: a') b'). simpl in Hfirst.
      rewrite H in Hfirst. specialize (Hfirst eq_refl). lia.
Qed.

Lemma replace_absent (s p r : jsstring) :
  (forall a b, s <> a ++ p ++ b) -> replace s p r = s.
Proof.
  induction s as [|c s IH]; intros Habs; rewrite replace_unfold.
  - destruct (JS.startsWith [] p) eqn:E; [|reflexivity].
    apply startsWith_prefix in E as [rest E].
    exfalso. apply (Habs [] rest). exact E.
  - destruct (JS.startsWith (c :: s) p) eqn:E.
    + apply startsWith_prefix in E as [rest E].
      exfalso. apply (Habs [] rest). exact E.
    + f_equal. apply IH. intros a b H.
      apply (Habs (c :: a) b). simpl. rewrite H. reflexivity.
Qed.

(** [getDomain] takes the first ["www."] out of the host name, wherever it
    stands: a host name that starts with it loses the prefix, and one that
    holds it further in loses it there. *)
Theorem getDomain_first_www
  (hostname : jsstring -> option jsstring) (urlString a b : jsstring) :
  hostname urlString = Some (a ++ JS.lit "www." ++ b) ->
  (forall a' b',
     a ++ JS.lit "www." ++ b = a' ++ JS.lit "www." ++ b' ->
     (List.length a <= List.length a')%nat) ->
  getDomain hostname urlString = a ++ b.
Proof.
  intros Hh Hfirst. unfold getDomain. rewrite Hh.
  apply (replace_first a (JS.lit "www.") b [] Hfirst).
Qed.

Lemma getDomain_first_www_witness :
  getDomain (fun _ => Some (JS.lit "www.example.com"))
    (JS.lit "https://www.example.com/page")
  = JS.lit "example.com".
Proof.
  apply (getDomain_first_www (fun _ => Some (JS.lit "www.example.com"))
           (JS.lit "https://www.example.com/page") [] (JS.lit "example.com")).
  - reflexivity.
  - intros a' b' _. apply Nat.le_0_l.
Defined.

(** [getDomain] returns the host name as it is when ["www."] does not occur
    in it, and the string it was given when that is not a URL. *)
Theorem getDomain_unchanged
  (hostname : jsstring -> option jsstring) (urlString : jsstring) :
  (hostname urlString = None -> getDomain hostname urlString = urlString)
  /\ (forall h,
        hostname urlString = Some h ->
        (forall a b, h <> a ++ JS.lit "www." ++ b) ->
        getDomain hostname urlString = h).
Proof.
  unfold getDomain. split.
  - intros ->. reflexivity.
  - intros h -> Habs. apply replace_absent. exact Habs.
Qed.

Lemma getDomain_unchanged_witness :
  getDomain (fun _ => None) (JS.lit "not a url") = JS.lit "not a url"
  /\ getDomain (fun _ => Some (JS.lit "ww")) (JS.lit "http://ww")
     = JS.lit "ww".
Proof.
  split.
  - exact (proj1 (getDomain_unchanged (fun _ => None) (JS.lit "not a url"))
             eq_refl).
  - apply (proj2 (getDomain_unchanged (fun _ => Some (JS.lit "ww"))
                    (JS.lit "http://ww")) (JS.lit "ww") eq_refl).
    intros a b H. apply (f_equal (@List.length N)) in H.
    rewrite !length_app in H. simpl in H. lia.
Defined.

(** ** Frames *)

(** A change of the feed touches the collection and nothing else: the form,
    the flags, the error message, the requests, the promises in flight and
    the channel are what they were. *)
Theorem feed_touches_only_bookmarks (e : Event) (w : World) :
  isFeed e = true ->
  let w' := step e w in
  (url (ui w'), title (ui w'), loading (ui w'), adding (ui w'),
   deletingId (ui w'), showForm (ui w'), errorMsg (ui w'))
  = (url (ui w), title (ui w), loading (ui w), adding (ui w),
     deletingId (ui w), showForm (ui w), errorMsg (ui w))
  /\ sent w' = sent w
  /\ inflight w' = inflight w
  /\ channel w' = channel w.
Proof.
  intros He. destruct e; try discriminate; simpl; unfold deliver;
    match goal with |- context [listens ?ev w] => destruct (listens ev w) end;
    repeat split.
Qed.

Lemma feed_touches_only_bookmarks_witness :
  sent (step (FeedInsert bookmark1) (step (Effect alice) initialWorld))
  = sent (step (Effect alice) initialWorld).
Proof.
  exact (proj1 (proj2 (feed_touches_only_bookmarks (FeedInsert bookmark1)
                         (step (Effect alice) initialWorld) eq_refl))).
Defined.

(** ** Requests *)

Lemma forallb_without (f : Pending -> bool) (i : nat) (l : list Pending) :
  forallb f l = true -> forallb f (without i l) = true.
Proof.
  unfold without. revert i; induction l as [|x l IH]; intros i H.
  - destruct i; reflexivity.
  - simpl in H. apply andb_true_iff in H as [Hx Hl].
    destruct i as [|i]; [exact Hl|].
    simpl. rewrite Hx. apply (IH i Hl).
Qed.

Lemma step_for_user (user : User) (e : Event) (w : World) :
  forallb (forUser user) (sent w) = true ->
  forallb (pendingOf user) (inflight w) = true ->
  eventOf user e = true ->
  forallb (forUser user) (sent (step e w)) = true
  /\ forallb (pendingOf user) (inflight (step e w)) = true.
Proof.
  intros Hs Hp He.
  destruct e; simpl in *; auto.
  - rewrite !forallb_app, Hs, Hp. simpl. unfold filtersBy; simpl.
    rewrite He. auto.
  - unfold deliver. destruct (listens Supabase.INSERT w); auto.
  - unfold deliver. destruct (listens Supabase.DELETE w); auto.
  - unfold channelStatus. destruct (channel w); auto.
  - unfold handleAddBookmark.
    destruct (negb (JS.truthy (JS.trim (url (ui w))))
              || negb (JS.truthy (JS.trim (title (ui w))))); auto.
    simpl. rewrite !forallb_app, Hs, Hp. simpl. rewrite He. auto.
  - rewrite !forallb_app, Hs, Hp. auto.
  - unfold resolve. destruct (nth_error (inflight w) i) as [k|] eqn:Ek; auto.
    pose proof (forallb_without _ i _ Hp) as Hp'.
    assert (Hk : pendingOf user k = true).
    { rewrite forallb_forall in Hp. apply Hp. eapply nth_error_In; eauto. }
    destruct k; simpl.
    + unfold fetchBookmarks_resume.
      destruct (Supabase.error r); [auto|].
      destruct (Supabase.data r); auto.
    + unfold handleAddBookmark_resume.
      destruct (Supabase.error r); simpl; [auto|].
      rewrite !forallb_app, Hs, Hp'. simpl. unfold filtersBy; simpl.
      simpl in Hk. rewrite Hk. auto.
    + auto.
Qed.

(** The component stays within the bookmarks of its user.  When every effect
    and every submit is the one of [user], each request it sends is on the
    bookmarks table, each query is filtered by the id of [user] and each
    inserted row carries that id. *)
Theorem requests_for_user (user : User) (es : list Event) (w : World) :
  forallb (forUser user) (sent w) = true ->
  forallb (pendingOf user) (inflight w) = true ->
  forallb (eventOf user) es = true ->
  forallb (forUser user) (sent (run es w)) = true.
Proof.
  revert w; induction es as [|e es IH]; intros w Hs Hp He; [exact Hs|].
  simpl in He. apply andb_true_iff in He as [He Hes].
  destruct (step_for_user user e w Hs Hp He) as [Hs' Hp'].
  simpl. apply IH; assumption.
Qed.

Lemma requests_for_user_witness :
  forallb (forUser alice)
    (sent (run [Effect alice; ChangeUrl (JS.lit "example.com");
                ChangeTitle (JS.lit "Example"); Submit alice;
                Resolve 1 (ok None); ClickDelete (JS.lit "1")]
             initialWorld)) = true.
Proof.
  apply (requests_for_user alice
           [Effect alice; ChangeUrl (JS.lit "example.com");
            ChangeTitle (JS.lit "Example"); Submit alice;
            Resolve 1 (ok None); ClickDelete (JS.lit "1")]
           initialWorld); reflexivity.
Defined.
